(** * Phoenix download manager: a shallow embedding of
      [scripts/phoenix_downloader.py] and the properties of its
      download-and-verify workflow.

    The Python class [PhoenixDownloader] is embedded as functions in a small
    state-and-exception monad.  Everything outside the script (the CivitAI
    endpoint, the command-line tools it spawns, the directory tree under the
    models directory) is an environment record [Env]; the statements below
    quantify over it.

    Strings are byte strings: [str.strip], [str.split] and [str.lower] are
    modelled on ASCII text.  The spawned tools are assumed installed: a
    run yields an exit status, an output and the files it leaves. *)

From Stdlib Require Import ZArith Ascii String List Bool Lia.
From Stdlib Require Import Numbers.DecimalString.
From stdpp Require Import base gmap strings list.

Import ListNotations.
#[local] Set Warnings "-register-all".

(** ** Python string primitives *)

Module Py.

(** [str.isspace] on one ASCII character: TAB..CR, FS..US and the space.
    Whitespace beyond ASCII (NO-BREAK SPACE and the like) is outside the
    model. *)
Definition is_space (c : ascii) : bool :=
  let n := nat_of_ascii c in
  (Nat.leb 9 n && Nat.leb n 13) || (Nat.leb 28 n && Nat.leb n 32).

(** Truth value of a [str]: non-empty. *)
Definition truthy_str (s : string) : bool :=
  match s with EmptyString => false | String _ _ => true end.

Fixpoint lstrip (s : string) : string :=
  match s with
  | EmptyString => EmptyString
  | String c r => if is_space c then lstrip r else s
  end.

Fixpoint rstrip (s : string) : string :=
  match s with
  | EmptyString => EmptyString
  | String c r =>
      let r' := rstrip r in
      if is_space c && negb (truthy_str r') then EmptyString else String c r'
  end.

(** [s.strip()] *)
Definition strip (s : string) : string := rstrip (lstrip s).

(** [s.split(sep)] for a one-character separator: never the empty list. *)
Fixpoint split_on (sep : ascii) (s : string) : list string :=
  match s with
  | EmptyString => [EmptyString]
  | String c r =>
      if Ascii.eqb c sep then EmptyString :: split_on sep r
      else match split_on sep r with
           | h :: t => String c h :: t
           | [] => [String c EmptyString]
           end
  end.

(** [s.split()]: the maximal runs of non-whitespace characters.  [cur] is
    the run being read, if any. *)
Fixpoint split_ws_from (cur : option string) (s : string) : list string :=
  match s with
  | EmptyString => match cur with Some w => [w] | None => [] end
  | String c r =>
      if is_space c then
        match cur with
        | Some w => w :: split_ws_from None r
        | None => split_ws_from None r
        end
      else
        split_ws_from
          (Some (match cur with Some w => w | None => EmptyString end
                 +:+ String c EmptyString)) r
  end.

Definition split_ws (s : string) : list string := split_ws_from None s.

Definition lower_char (c : ascii) : ascii :=
  let n := nat_of_ascii c in
  if Nat.leb 65 n && Nat.leb n 90 then ascii_of_nat (n + 32) else c.

(** [s.lower()] *)
Fixpoint lower (s : string) : string :=
  match s with
  | EmptyString => EmptyString
  | String c r => String (lower_char c) (lower r)
  end.

Fixpoint is_prefix (p s : string) : bool :=
  match p, s with
  | EmptyString, _ => true
  | String a p', String b s' => Ascii.eqb a b && is_prefix p' s'
  | String _ _, EmptyString => false
  end.

(** [sub in s] on two strings. *)
Fixpoint contains (sub s : string) : bool :=
  is_prefix sub s ||
  match s with
  | EmptyString => false
  | String _ r => contains sub r
  end.

(** [s[:n]] *)
Fixpoint take (n : nat) (s : string) : string :=
  match n, s with
  | S n', String c r => String c (take n' r)
  | _, _ => EmptyString
  end.

(** [sep.join(l)] *)
Fixpoint join (sep : string) (l : list string) : string :=
  match l with
  | [] => EmptyString
  | [x] => x
  | x :: r => x +:+ sep +:+ join sep r
  end.

(** [str(n)] for a non-negative [int]. *)
Definition str_of_nat (n : nat) : string :=
  NilZero.string_of_uint (Nat.to_uint n).

Fixpoint chars (s : string) : list ascii :=
  match s with
  | EmptyString => []
  | String c r => c :: chars r
  end.

Definition has_char (c : ascii) (s : string) : bool :=
  existsb (Ascii.eqb c) (chars s).

#[global] Arguments take : simpl never.
#[global] Arguments split_ws : simpl never.
#[global] Arguments lower : simpl never.
#[global] Arguments join : simpl never.
#[global] Arguments str_of_nat : simpl never.

End Py.

(** The comprehension [[x.strip() for x in lst.split(',') if x.strip()]]
    of [download_hf_repos] and [process_civitai_downloads]. *)
Definition stripped_entries (lst : string) : list string :=
  List.map Py.strip
    (List.filter (fun x => Py.truthy_str (Py.strip x)) (Py.split_on "," lst)).

(** ** Python values (decoded JSON) *)

(** What [response.json()] can hand back.  Numbers are integers here; an
    object is the list of its entries, looked up by key. *)
Inductive value : Type :=
  | VNone
  | VBool (b : bool)
  | VInt (z : Z)
  | VStr (s : string)
  | VList (l : list value)
  | VDict (d : list (string * value)).

(** Exceptions the script can meet. [RequestException] stands for the whole
    [requests.RequestException] family (timeouts, connection errors,
    [HTTPError], exhausted retries, undecodable bodies). *)
Inductive exn : Type :=
  | TypeError
  | AttributeError
  | KeyError
  | IndexError
  | ValueError
  | NotImplementedError
  | RequestException
  | CalledProcessError
  | PermissionError.

Inductive res (A : Type) : Type :=
  | Ok (a : A)
  | Raise (e : exn).
Arguments Ok {A} a.
Arguments Raise {A} e.

Definition rbind {A B : Type} (r : res A) (k : A -> res B) : res B :=
  match r with
  | Ok a => k a
  | Raise e => Raise e
  end.

Notation "'let?' x ':=' r 'in' k" := (rbind r (fun x => k))
  (at level 10, x name, r at level 100, k at level 200).

Module Val.

(** [bool(v)] *)
Definition truthy (v : value) : bool :=
  match v with
  | VNone => false
  | VBool b => b
  | VInt z => negb (Z.eqb z 0)
  | VStr s => Py.truthy_str s
  | VList l => match l with [] => false | _ :: _ => true end
  | VDict d => match d with [] => false | _ :: _ => true end
  end.

(** Lookup in a [dict] decoded from a JSON object (keys are strings). *)
Fixpoint assoc (k : string) (d : list (string * value)) : option value :=
  match d with
  | [] => None
  | (k', v) :: r => if String.eqb k k' then Some v else assoc k r
  end.

Definition is_str (k : string) (v : value) : bool :=
  match v with VStr s => String.eqb s k | _ => false end.

(** [k in v] for a string [k]. *)
Definition contains (k : string) (v : value) : res bool :=
  match v with
  | VDict d => Ok (match assoc k d with Some _ => true | None => false end)
  | VList l => Ok (existsb (is_str k) l)
  | VStr s => Ok (Py.contains k s)
  | VNone | VBool _ | VInt _ => Raise TypeError
  end.

(** [v[k]] for a string [k]. *)
Definition getitem (k : string) (v : value) : res value :=
  match v with
  | VDict d => match assoc k d with Some x => Ok x | None => Raise KeyError end
  | _ => Raise TypeError
  end.

(** [v[0]] *)
Definition first (v : value) : res value :=
  match v with
  | VList (x :: _) => Ok x
  | VList [] => Raise IndexError
  | VStr (String c _) => Ok (VStr (String c EmptyString))
  | VStr EmptyString => Raise IndexError
  | VDict _ => Raise KeyError
  | VNone | VBool _ | VInt _ => Raise TypeError
  end.

(** [v.get(k, default)] *)
Definition get (k : string) (default : value) (v : value) : res value :=
  match v with
  | VDict d => Ok (match assoc k d with Some x => x | None => default end)
  | _ => Raise AttributeError
  end.

(** [v.lower()] *)
Definition lower (v : value) : res string :=
  match v with
  | VStr s => Ok (Py.lower s)
  | _ => Raise AttributeError
  end.

End Val.

(** ** [pathlib] directory trees and [Path.rglob] *)

(** What the process finds at a path.  Permissions are those of the
    process: a directory is [listable] when the process may read its
    entries and [searchable] when it may reach what is inside.  Names are
    unique within a directory and the entries come in the order in which
    the directory is read. *)
Inductive node : Type :=
  | File       (* a regular file, or a link that resolves to one *)
  | Other      (* anything else the scan does not enter: a socket, a
                  device, a dangling link, a link to a directory *)
  | Locked     (* a link whose target the process may not examine:
                  [stat] raises [PermissionError] *)
  | Dir (listable searchable : bool) (entries : list (string * node)).

Module Glob.

(** [fnmatch.translate]: the pattern as a list of items. *)
Inductive tok : Type :=
  | TStar
  | TAny
  | TLit (c : ascii)
  | TSet (negated : bool) (ranges : list (ascii * ascii)).

Fixpoint until_close (s : list ascii) : option (list ascii * list ascii) :=
  match s with
  | [] => None
  | c :: r =>
      if Ascii.eqb c "]" then Some ([], r)
      else match until_close r with
           | Some (a, b) => Some (c :: a, b)
           | None => None
           end
  end.

Definition skip1 (c : ascii) (s : list ascii) : list ascii * list ascii :=
  match s with
  | x :: r => if Ascii.eqb x c then ([x], r) else ([], s)
  | [] => ([], [])
  end.

(** After a "[": the text up to the closing "]" (a leading "!" and a "]"
    right after it do not close), and what follows; [None] when the bracket
    is never closed. *)
Definition close_bracket (s : list ascii)
  : option (list ascii * list ascii) :=
  let '(p1, s1) := skip1 "!" s in
  let '(p2, s2) := skip1 "]" s1 in
  match until_close s2 with
  | Some (a, rest) => Some (p1 ++ p2 ++ a, rest)
  | None => None
  end.

(** Members of a bracket expression: [a-b] is a range (empty when
    [a > b]), anything else stands for itself. *)
Fixpoint ranges (body : list ascii) : list (ascii * ascii) :=
  match body with
  | [] => []
  | a :: r =>
      match r with
      | dash :: b :: r' =>
          if Ascii.eqb dash "-" then (a, b) :: ranges r'
          else (a, a) :: ranges r
      | _ => (a, a) :: ranges r
      end
  end.

Definition set_of (stuff : list ascii) : tok :=
  match stuff with
  | bang :: body =>
      if Ascii.eqb bang "!" then TSet true (ranges body)
      else TSet false (ranges stuff)
  | [] => TSet false []
  end.

Fixpoint translate (fuel : nat) (pat : list ascii) : list tok :=
  match fuel with
  | O => []
  | S fuel' =>
      match pat with
      | [] => []
      | c :: r =>
          if Ascii.eqb c "*" then TStar :: translate fuel' r
          else if Ascii.eqb c "?" then TAny :: translate fuel' r
          else if Ascii.eqb c "[" then
            match close_bracket r with
            | Some (stuff, rest) => set_of stuff :: translate fuel' rest
            | None => TLit c :: translate fuel' r
            end
          else TLit c :: translate fuel' r
      end
  end.

Definition in_range (c : ascii) (r : ascii * ascii) : bool :=
  Nat.leb (nat_of_ascii (fst r)) (nat_of_ascii c)
  && Nat.leb (nat_of_ascii c) (nat_of_ascii (snd r)).

Definition accepts (t : tok) (c : ascii) : bool :=
  match t with
  | TStar | TAny => true
  | TLit x => Ascii.eqb x c
  | TSet negated rs => xorb negated (existsb (in_range c) rs)
  end.

Fixpoint match_toks (ts : list tok) (s : list ascii) : bool :=
  match ts with
  | [] => match s with [] => true | _ :: _ => false end
  | TStar :: ts' =>
      (fix star (s : list ascii) : bool :=
         match_toks ts' s
         || match s with [] => false | _ :: r => star r end) s
  | t :: ts' =>
      match s with
      | [] => false
      | c :: r => accepts t c && match_toks ts' r
      end
  end.

(** [fnmatch.fnmatchcase(name, pat)] *)
Definition fnmatch (pat name : string) : bool :=
  match_toks (translate (String.length pat) (Py.chars pat)) (Py.chars name).

(** pathlib's [_is_wildcard_pattern] *)
Definition is_wildcard_pattern (pat : string) : bool :=
  Py.has_char "*" pat || Py.has_char "?" pat || Py.has_char "[" pat.

(** How one pattern component selects a directory entry: by name when it
    has no wildcard, through [fnmatch] otherwise. *)
Definition name_matches (pat name : string) : bool :=
  if is_wildcard_pattern pat then fnmatch pat name else String.eqb pat name.

(** Patterns that are a single path component.  The others (empty, with a
    "/" or a "**", or one of "." and "..") make pathlib build a different
    selector chain. *)
Definition one_component (pat : string) : bool :=
  Py.truthy_str pat
  && negb (Py.has_char "/" pat)
  && negb (Py.contains "**" pat)
  && negb (String.eqb pat ".") && negb (String.eqb pat "..").

(** Whether [stat] succeeds on an entry. *)
Definition examinable (n : node) : bool :=
  match n with Locked => false | _ => true end.

(** The paths [rglob] yields for a one-component pattern, as pathlib 3.11
    selects them: the directory's own matches first, then those of its
    sub-directories in turn.

    A pattern with a wildcard is matched against the listing of the
    directory, which must be listable; a match in a directory that is not
    searchable is yielded though it cannot be examined ([Locked]).  A
    pattern without a wildcard is looked up by [stat], for which the
    directory must be searchable and need not be listable, and an entry
    that cannot be examined is not yielded (nor is a dangling link, which
    is no regular file either way).  Sub-directories are read off the listing
    and entered when the directory is listable and searchable; links to
    directories are not entered, and an entry that cannot be examined
    ends the descent at that point. *)
Fixpoint walk (pat : string) (n : node) : list node :=
  match n with
  | Dir listable searchable es =>
      let own :=
        List.map snd (List.filter (fun e => name_matches pat (fst e)) es) in
      (if is_wildcard_pattern pat then
         if listable
         then List.map (fun c => if searchable then c else Locked) own
         else []
       else
         if searchable then List.filter examinable own else [])
      ++ (if listable && searchable then
            (fix below (es : list (string * node)) : list node :=
               match es with
               | [] => []
               | (_, Locked) :: _ => []
               | (_, c) :: rest => walk pat c ++ below rest
               end) es
          else [])
  | _ => []
  end.

End Glob.

(** A regular file. *)
Definition regular (n : node) : bool :=
  match n with File => true | _ => false end.

(** [path.is_file()] on a yielded path: [stat] errors other than "not
    there" are raised. *)
Definition is_file (n : node) : res bool :=
  match n with
  | Locked => Raise PermissionError
  | _ => Ok (regular n)
  end.

(** The loop [for path in ...: if path.is_file(): return True]. *)
Fixpoint first_file_among (paths : list node) : res bool :=
  match paths with
  | [] => Ok false
  | path :: rest =>
      let? found := is_file path in
      if found then Ok true else first_file_among rest
  end.

(** ** The world of the script *)

(** What the script does to its surroundings, in order. *)
Inductive event : Type :=
  | HttpGet (url : string) (headers : list (string * string))
  | Spawn (cmd : list string)
  | Unlink (path : string).

(** [disk]: the files the spawned tools write and the script unlinks, by
    path.  [out]: the lines printed on standard output. *)
Record state : Type := State {
  disk : gmap string string;
  trace : list event;
  out : list string
}.

(** [subprocess.CompletedProcess], with the files left behind. *)
Record completed : Type := Completed {
  returncode : Z;
  stdout : string;
  disk_after : gmap string string
}.

(** Outcome of [session.get]: a [RequestException] (timeout, connection
    error, retries exhausted), or a response; [body = None] is a body that
    [response.json()] cannot decode, which requests reports with its own
    [JSONDecodeError], a [RequestException]. *)
Inductive http_outcome : Type :=
  | RequestFailed
  | Response (status_code : Z) (body : option value).

Record Env : Type := {
  session_get : string -> list (string * string) -> http_outcome;
  subprocess_run : list string -> gmap string string -> completed;
  environ_STORAGE_ROOT : option string;
  (** the tree found at a path, if anything is there *)
  tree_at : string -> option node;
  (** what [rglob] yields from a directory for a pattern that is not a
      single path component *)
  rglob_compound : string -> node -> res (list node);
  (** [str(v)] for a value that is not a [str] *)
  str_of : value -> string
}.

(** [self] *)
Record PhoenixDownloader : Type := {
  debug_mode : bool;
  download_tmp_dir : string
}.

(** [PhoenixDownloader.__init__], when it succeeds.  The constructor also
    runs [download_tmp_dir.mkdir(exist_ok=True)], which creates the
    staging directory when it is missing and raises when it cannot (no
    /workspace, or a file in the way), and builds the retrying HTTP
    session.  Neither has a counterpart here: [disk] records files and no
    directories, the retries are part of [session_get], and what is said
    of [main] below is said of the runs in which the constructor
    succeeds. *)
Definition init (debug_mode : bool) : PhoenixDownloader :=
  {| debug_mode := debug_mode; download_tmp_dir := "/workspace/downloads_tmp" |}.

(** pathlib's reading of a POSIX path ([splitroot], [parse_parts]): the
    root is "/" for a path that starts with slashes, "//" when they are
    exactly two; the parts are what the slashes separate, without the
    empty ones and the "." ones. *)
Fixpoint lstrip_sep (s : string) : string :=
  match s with
  | EmptyString => EmptyString
  | String c r => if Ascii.eqb c "/" then lstrip_sep r else s
  end.

Definition splitroot (s : string) : string * string :=
  let rel := lstrip_sep s in
  let slashes := String.length s - String.length rel in
  ((if Nat.eqb slashes 0 then "" else if Nat.eqb slashes 2 then "//" else "/"),
   rel).

Definition parse_parts (s : string) : string * list string :=
  let '(root, rel) := splitroot s in
  (root,
   List.filter (fun x => Py.truthy_str x && negb (String.eqb x "."))
     (Py.split_on "/" rel)).

(** [str] of a path given by its root and parts. *)
Definition format_parsed_parts (root : string) (parts : list string)
  : string :=
  match root, parts with
  | EmptyString, [] => "."
  | _, _ => root +:+ Py.join "/" parts
  end.

(** [str(Path(d) / name)]: an absolute right operand replaces the left
    one. *)
Definition path_join (d name : string) : string :=
  let '(root1, parts1) := parse_parts d in
  let '(root2, parts2) := parse_parts name in
  if Py.truthy_str root2 then format_parsed_parts root2 parts2
  else format_parsed_parts root1 (parts1 ++ parts2).

(** ** The monad: state and Python exceptions *)

Definition M (A : Type) : Type := state -> res A * state.

Definition ret {A : Type} (a : A) : M A := fun st => (Ok a, st).

Definition bind {A B : Type} (m : M A) (k : A -> M B) : M B :=
  fun st =>
    match m st with
    | (Ok a, st') => k a st'
    | (Raise e, st') => (Raise e, st')
    end.

Definition raise {A : Type} (e : exn) : M A := fun st => (Raise e, st).

Definition lift {A : Type} (r : res A) : M A := fun st => (r, st).

(** [try: body except <catches>: handler] *)
Definition try_except {A : Type} (body : M A) (catches : exn -> bool)
    (handler : M A) : M A :=
  fun st =>
    match body st with
    | (Raise e, st') => if catches e then handler st' else (Raise e, st')
    | r => r
    end.

Declare Scope py_scope.
Delimit Scope py_scope with py.
Notation "x <- m ;; k" := (bind m (fun x => k))
  (at level 100, m at next level, right associativity) : py_scope.
Notation "m ;;; k" := (bind m (fun _ => k))
  (at level 100, right associativity) : py_scope.
Local Open Scope py_scope.

Definition any_exception (_ : exn) : bool := true.

Definition is_RequestException (e : exn) : bool :=
  match e with RequestException => true | _ => false end.

Definition is_CalledProcessError (e : exn) : bool :=
  match e with CalledProcessError => true | _ => false end.

Section Downloader.

Variable E : Env.
Variable self : PhoenixDownloader.

(** [PhoenixDownloader.log] *)
Definition log (message : string) (is_debug : bool) : M unit :=
  fun st =>
    let prefix := if is_debug then "[DOWNLOAD-DEBUG]" else "[DOWNLOAD]" in
    if is_debug && negb (debug_mode self) then (Ok tt, st)
    else (Ok tt,
          {| disk := disk st; trace := trace st;
             out := out st ++ ["  " +:+ prefix +:+ " " +:+ message] |}).

(** [subprocess.run(cmd, check=check)] *)
Definition run (cmd : list string) (check : bool) : M completed :=
  fun st =>
    let r := subprocess_run E cmd (disk st) in
    let st' := {| disk := disk_after r; trace := trace st ++ [Spawn cmd];
                  out := out st |} in
    if check && negb (Z.eqb (returncode r) 0)
    then (Raise CalledProcessError, st')
    else (Ok r, st').

(** [path.unlink(missing_ok=True)] *)
Definition unlink_missing_ok (path : string) : M unit :=
  fun st =>
    (Ok tt, {| disk := delete path (disk st);
               trace := trace st ++ [Unlink path]; out := out st |}).

(** [self.session.get(url, headers=headers, timeout=30)] followed by
    [response.raise_for_status()] *)
Definition get_and_raise_for_status (url : string)
    (headers : list (string * string)) : M (Z * option value) :=
  fun st =>
    let st' := {| disk := disk st; trace := trace st ++ [HttpGet url headers];
                  out := out st |} in
    match session_get E url headers with
    | RequestFailed => (Raise RequestException, st')
    | Response code body =>
        if Z.leb 400 code && Z.ltb code 600
        then (Raise RequestException, st')
        else (Ok (code, body), st')
    end.

(** [response.json()] *)
Definition json (body : option value) : M value :=
  match body with
  | Some v => ret v
  | None => raise RequestException
  end.

Definition truthy_token (token : option string) : bool :=
  match token with Some t => Py.truthy_str t | None => false end.

Definition token_text (token : option string) : string :=
  match token with Some t => t | None => "None" end.

(** The value [get_civitai_model_info] returns when it finds a file. *)
Record model_info : Type := {
  filename : value;
  download_url : string;
  hash : string
}.

(** Lines 121-128 of [get_civitai_model_info]: what the decoded body
    [data] yields; [None] is the fall-through to the "Invalid API response
    structure" line. *)
Definition first_file (model_id : string) (data : value)
  : res (option model_info) :=
  let? has_files := Val.contains "files" data in
  let? files_ok :=
    (if has_files : bool then
       let? files := Val.getitem "files" data in Ok (Val.truthy files)
     else Ok false) in
  if files_ok : bool then
    let? files := Val.getitem "files" data in
    let? file_info := Val.first files in
    let? name := Val.get "name" VNone file_info in
    let? hashes := Val.get "hashes" (VDict []) file_info in
    let? sha := Val.get "SHA256" (VStr "") hashes in
    let? h := Val.lower sha in
    Ok (Some
          {| filename := name;
             download_url :=
               "https://civitai.com/api/download/models/"
               +:+ model_id +:+ "?type=Model&format=SafeTensor";
             hash := h |})
  else Ok None.

(** [PhoenixDownloader.get_civitai_model_info].  The text of the caught
    exception, printed in debug mode only, is not modelled. *)
Definition get_civitai_model_info (model_id : string) (token : option string)
  : M (option model_info) :=
  let headers :=
    if truthy_token token
    then [("Authorization", "Bearer " +:+ token_text token)] else [] in
  let api_url := "https://civitai.com/api/v1/model-versions/" +:+ model_id in
  log ("Fetching metadata from: " +:+ api_url) true ;;;
  try_except
    (response <- get_and_raise_for_status api_url headers ;;
     found <-
       (if Z.eqb (fst response) 200 then
          data <- json (snd response) ;;
          lift (first_file model_id data)
        else ret None) ;;
     match found with
     | Some info => ret (Some info)
     | None =>
         log ("Invalid API response structure for model " +:+ model_id) true ;;;
         ret None
     end)
    is_RequestException
    (log ("API request failed for model " +:+ model_id +:+ ": ...") true ;;;
     ret None).

(** [Path.rglob(pattern)], as the list of paths it yields.  Nothing is
    yielded unless the root is a directory; a root that cannot be examined
    raises; a pattern that is not a [str] is a [TypeError], an absolute
    one a [NotImplementedError]. *)
Definition rglob (root : option node) (pattern : value) : res (list node) :=
  match pattern with
  | VStr pat =>
      if Py.is_prefix "/" pat then Raise NotImplementedError
      else
        match root with
        | Some (Dir listable searchable es) =>
            if Glob.one_component pat
            then Ok (Glob.walk pat (Dir listable searchable es))
            else rglob_compound E pat (Dir listable searchable es)
        | Some Locked => Raise PermissionError
        | _ => Ok []
        end
  | _ => Raise TypeError
  end.

(** [PhoenixDownloader._file_exists_in_models]: any exception, of the scan
    or of [is_file], is swallowed and ends the search. *)
Definition _file_exists_in_models (models_dir : string) (filename : value)
  : bool :=
  match (let? paths := rglob (tree_at E models_dir) filename in
         first_file_among paths) with
  | Ok found => found
  | Raise _ => false
  end.

(** [PhoenixDownloader._verify_checksum] *)
Definition _verify_checksum (file_path expected_hash : string) : M bool :=
  try_except
    (result <- run ["sha256sum"; file_path] true ;;
     match Py.split_ws (stdout result) with
     | first :: _ =>
         let actual_hash := Py.lower first in
         ret (String.eqb actual_hash (Py.lower expected_hash))
     | [] => raise IndexError
     end)
    any_exception
    (ret false).

(** [f"{v}"]: a [str] is printed as it is. *)
Definition text (v : value) : string :=
  match v with VStr s => s | _ => str_of E v end.

(** [self.download_tmp_dir / filename] *)
Definition staged (filename : value) : M string :=
  match filename with
  | VStr f => ret (path_join (download_tmp_dir self) f)
  | _ => raise TypeError
  end.

(** [Path(os.environ.get('STORAGE_ROOT', '/workspace')) / 'models'] *)
Definition models_dir : string :=
  path_join
    (match environ_STORAGE_ROOT E with Some r => r | None => "/workspace" end)
    "models".

(** The URL handed to [aria2c]: the token, when there is one, goes into the
    query string. *)
Definition transfer_url (info : model_info) (token : option string) : string :=
  if truthy_token token
  then download_url info +:+ "&token=" +:+ token_text token
  else download_url info.

(** The [aria2c] command line of [download_civitai_model]. *)
Definition aria2c_cmd (filename : value) (download_url : string)
  : list string :=
  [ "aria2c"; "-x"; "8"; "-s"; "8"; "--continue=true";
    (if negb (debug_mode self) then "--console-log-level=warn"
     else "--console-log-level=info");
    (if negb (debug_mode self) then "--summary-interval=0"
     else "--summary-interval=10");
    "--dir=" +:+ download_tmp_dir self;
    "--out=" +:+ text filename;
    download_url ].

(** [PhoenixDownloader.download_civitai_model] *)
Definition download_civitai_model (model_id model_type : string)
    (token : option string) : M bool :=
  if negb (Py.truthy_str model_id) then ret true
  else
    log ("Processing Civitai model ID: " +:+ model_id) true ;;;
    model_info <- get_civitai_model_info model_id token ;;
    let no_metadata : M bool :=
      log ("❌ ERROR: Could not retrieve metadata for Civitai model ID "
           +:+ model_id +:+ ".") false ;;;
      ret false in
    match model_info with
    | None => no_metadata
    | Some info =>
      if negb (Val.truthy (filename info)) then no_metadata
      else
        let filename := filename info in
        let remote_hash := hash info in
        log ("Filename: " +:+ text filename) true ;;;
        log ("Download URL: " +:+ Py.take 50 (download_url info) +:+ "...")
            true ;;;
        if _file_exists_in_models models_dir filename then
          log ("ℹ️ Skipping download for '" +:+ text filename
               +:+ "', file already exists.") false ;;;
          ret true
        else
          log ("Starting Civitai download: " +:+ text filename +:+ " ("
               +:+ model_type +:+ ")") false ;;;
          let cmd := aria2c_cmd filename (transfer_url info token) in
          try_except
            ((if debug_mode self
              then log "Starting download with progress..." true
              else ret tt) ;;;
             result <- run cmd true ;;
             accepted <-
               (if Py.truthy_str remote_hash then
                  downloaded_file <- staged filename ;;
                  verified <- _verify_checksum downloaded_file remote_hash ;;
                  if verified then
                    log ("✅ Checksum PASSED for " +:+ text filename +:+ ".")
                        false ;;;
                    ret true
                  else
                    log ("❌ ERROR: Checksum FAILED for " +:+ text filename
                         +:+ ".") false ;;;
                    unlink_missing_ok downloaded_file ;;;
                    ret false
                else
                  log ("No checksum available for " +:+ text filename
                       +:+ ", skipping validation") true ;;;
                  ret true) ;;
             if accepted then
               log ("✅ Completed Civitai download: " +:+ text filename)
                   false ;;;
               ret true
             else ret false)
            is_CalledProcessError
            (log ("❌ ERROR: Failed to download " +:+ text filename
                  +:+ " from Civitai.") false ;;;
             ret false)
    end.

(** The [for model_id in ids] loop of [process_civitai_downloads], with its
    two counters. *)
Fixpoint tally_loop (ids : list string) (model_type : string)
    (token : option string) (successful failed : nat) : M (nat * nat) :=
  match ids with
  | [] => ret (successful, failed)
  | model_id :: rest =>
      ok <- download_civitai_model model_id model_type token ;;
      if ok then tally_loop rest model_type token (S successful) failed
      else
        log ("⏭️ Continuing with remaining " +:+ model_type +:+ "s...")
            false ;;;
        tally_loop rest model_type token successful (S failed)
  end.

(** The closing line of [process_civitai_downloads]. *)
Definition summary_line (model_type : string) (successful failed : nat)
  : string :=
  "Civitai " +:+ model_type +:+ "s complete: " +:+ Py.str_of_nat successful
  +:+ " successful, " +:+ Py.str_of_nat failed +:+ " failed".

(** [PhoenixDownloader.process_civitai_downloads] *)
Definition process_civitai_downloads (download_list model_type : string)
    (token : option string) : M bool :=
  if negb (Py.truthy_str download_list) then
    log ("No Civitai " +:+ model_type +:+ "s specified to download.") false ;;;
    ret true
  else
    log ("Found Civitai " +:+ model_type +:+ "s to download...") false ;;;
    log ("Processing list: " +:+ download_list) true ;;;
    let ids := stripped_entries download_list in
    counts <- tally_loop ids model_type token 0 0 ;;
    log (summary_line model_type (fst counts) (snd counts)) false ;;;
    ret true.

(** One turn of the [for repo_id in repos] loop of [download_hf_repos]. *)
Definition download_hf_repo (repo_id : string) (token : option string)
  : M unit :=
  log ("Starting HF download: " +:+ repo_id) false ;;;
  let local_dir := path_join (download_tmp_dir self) repo_id in
  let base :=
    [ "huggingface-cli"; "download"; repo_id; "--local-dir"; local_dir;
      "--local-dir-use-symlinks"; "False"; "--resume-download" ] in
  let cmd :=
    if truthy_token token then base ++ ["--token"; token_text token]
    else base in
  (if truthy_token token
   then log "Using provided HuggingFace token" true
   else log "No HuggingFace token provided" true) ;;;
  try_except
    ((if debug_mode self
      then log ("Running: " +:+ Py.join " " cmd) true
      else ret tt) ;;;
     result <- run cmd true ;;
     log ("✅ Completed HF download: " +:+ repo_id) false ;;;
     if debug_mode self then
       try_except
         (size_result <- run ["du"; "-sh"; local_dir] false ;;
          if Z.eqb (returncode size_result) 0 then
            match Py.split_ws (stdout size_result) with
            | size :: _ => log ("Downloaded size: " +:+ size) true
            | [] => raise IndexError
            end
          else ret tt)
         any_exception
         (ret tt)
     else ret tt)
    is_CalledProcessError
    (log ("❌ ERROR: Failed to download '" +:+ repo_id +:+ "'.") false ;;;
     (if negb (truthy_token token) then
        log "   HINT: This is likely a private/gated repository. Please provide a"
            false ;;;
        log "   HUGGINGFACE_TOKEN via RunPod Secrets ('huggingface.co')." false
      else
        log "   HINT: Please check if your token is valid and has access to this repository."
            false) ;;;
     log "   ⏭️ Continuing with remaining downloads..." false).

Fixpoint hf_loop (repos : list string) (token : option string) : M unit :=
  match repos with
  | [] => ret tt
  | repo_id :: rest => download_hf_repo repo_id token ;;; hf_loop rest token
  end.

(** [PhoenixDownloader.download_hf_repos] *)
Definition download_hf_repos (repos_list : string) (token : option string)
  : M bool :=
  if negb (Py.truthy_str repos_list) then
    log "No Hugging Face repos specified to download." false ;;;
    ret true
  else
    log "Found Hugging Face repos to download..." false ;;;
    let repos := stripped_entries repos_list in
    hf_loop repos token ;;;
    ret true.

End Downloader.

Arguments path_join : simpl never.
Arguments aria2c_cmd : simpl never.
Arguments transfer_url : simpl never.
Arguments models_dir : simpl never.
Arguments _file_exists_in_models : simpl never.
Arguments first_file : simpl never.

(** ** Vocabulary of the statements *)

(** An entry of an identifier list is blank when it is empty or all
    whitespace. *)
Definition blank (s : string) : bool := forallb Py.is_space (Py.chars s).

Definition first_char (s : string) : option ascii :=
  match s with EmptyString => None | String c _ => Some c end.

Fixpoint last_char (s : string) : option ascii :=
  match s with
  | EmptyString => None
  | String c r => match last_char r with Some d => Some d | None => Some c end
  end.

Definition is_space_opt (c : option ascii) : bool :=
  match c with Some x => Py.is_space x | None => false end.

(** Whitespace at either end of a string. *)
Definition edge_space (s : string) : bool :=
  is_space_opt (first_char s) || is_space_opt (last_char s).

(** The state after some more lines were printed. *)
Definition printed (st : state) (lines : list string) : state :=
  {| disk := disk st; trace := trace st; out := out st ++ lines |}.

(** A line as [log] prints it when it is not a debug line. *)
Definition line (message : string) : string :=
  "  " +:+ "[DOWNLOAD]" +:+ " " +:+ message.

Definition log_lines (self : PhoenixDownloader) (message : string)
    (is_debug : bool) : list string :=
  if is_debug && negb (debug_mode self) then []
  else ["  " +:+ (if is_debug then "[DOWNLOAD-DEBUG]" else "[DOWNLOAD]")
        +:+ " " +:+ message].

(** A fresh run: nothing on disk, nothing done, nothing printed. *)
Definition st0 : state := {| disk := ∅; trace := []; out := [] |}.

Definition api_url (model_id : string) : string :=
  "https://civitai.com/api/v1/model-versions/" +:+ model_id.

Definition auth_headers (token : option string) : list (string * string) :=
  if truthy_token token
  then [("Authorization", "Bearer " +:+ token_text token)] else [].

(** The state in which the loop of [process_civitai_downloads] starts: two
    lines were printed. *)
Definition loop_start (self : PhoenixDownloader)
    (download_list model_type : string) (st : state) : state :=
  printed
    (printed st
       (log_lines self ("Found Civitai " +:+ model_type +:+ "s to download...")
          false))
    (log_lines self ("Processing list: " +:+ download_list) true).

(** The metadata request for an identifier, as it shows in the trace. *)
Definition lookup (model_id : string) (token : option string) : event :=
  HttpGet (api_url model_id) (auth_headers token).

(** What [get_civitai_model_info] returns, or raises; it does not depend on
    the state it starts in (lemma [get_civitai_model_info_run]). *)
Definition resolution (E : Env) (self : PhoenixDownloader)
    (model_id : string) (token : option string) : res (option model_info) :=
  fst (get_civitai_model_info E self model_id token st0).

(** The resolver's answer, read off the response. *)
Definition answer (E : Env) (model_id : string) (token : option string)
  : res (option model_info) :=
  match session_get E (api_url model_id) (auth_headers token) with
  | RequestFailed => Ok None
  | Response code body =>
      if Z.leb 400 code && Z.ltb code 600 then Ok None
      else if Z.eqb code 200 then
        match body with
        | Some data => first_file model_id data
        | None => Ok None
        end
      else Ok None
  end.

(** The transfer command for a file name [f]. *)
Definition transfer_cmd (E : Env) (self : PhoenixDownloader)
    (info : model_info) (f : string) (token : option string) : list string :=
  aria2c_cmd E self (VStr f) (transfer_url info token).

(** Where the transfer of [f] lands. *)
Definition staged_path (self : PhoenixDownloader) (f : string) : string :=
  path_join (download_tmp_dir self) f.

Definition checksum_cmd (self : PhoenixDownloader) (f : string) : list string :=
  ["sha256sum"; staged_path self f].

(** What the transfer tool leaves when it is started in state [st]. *)
Definition fetched (E : Env) (self : PhoenixDownloader) (info : model_info)
    (f : string) (token : option string) (st : state) : completed :=
  subprocess_run E (transfer_cmd E self info f token) (disk st).

(** What the checksum tool answers after that transfer. *)
Definition summed (E : Env) (self : PhoenixDownloader) (info : model_info)
    (f : string) (token : option string) (st : state) : completed :=
  subprocess_run E (checksum_cmd self f)
    (disk_after (fetched E self info f token st)).

(** The digest read off the checksum tool's output: its first word, when
    the tool succeeded and printed one. *)
Definition computed_digest (r : completed) : option string :=
  if Z.eqb (returncode r) 0 then
    match Py.split_ws (stdout r) with
    | first :: _ => Some first
    | [] => None
    end
  else None.

(** The answer of [_verify_checksum] on that output. *)
Definition verdict (r : completed) (expected_hash : string) : bool :=
  match computed_digest r with
  | Some d => String.eqb (Py.lower d) (Py.lower expected_hash)
  | None => false
  end.

(** Runs of a given tool in a trace. *)
Definition is_tool (tool : string) (e : event) : bool :=
  match e with
  | Spawn (t :: _) => String.eqb t tool
  | _ => false
  end.

Definition spawns (tool : string) (tr : list event) : list event :=
  List.filter (is_tool tool) tr.

(** The claim's reading of the existence check: a regular file named
    exactly [name] sits in some directory of the subtree. *)
Fixpoint present (name : string) (n : node) : bool :=
  match n with
  | Dir _ _ es =>
      existsb (fun e => String.eqb name (fst e) && regular (snd e)) es
      || existsb (fun e => match e with (_, c) => present name c end) es
  | _ => false
  end.

Definition present_under (name : string) (root : option node) : bool :=
  match root with Some n => present name n | None => false end.

(** A tree without obstacles: every directory can be listed and searched
    and every entry can be examined. *)
Fixpoint unobstructed (n : node) : bool :=
  match n with
  | Dir listable searchable es =>
      listable && searchable
      && forallb (fun e => match e with (_, c) => unobstructed c end) es
  | Locked => false
  | File | Other => true
  end.

Definition unobstructed_under (root : option node) : bool :=
  match root with Some n => unobstructed n | None => true end.

(** A name that is one path component and has no wildcard character. *)
Definition plain_name (f : string) : bool :=
  Glob.one_component f && negb (Glob.is_wildcard_pattern f).

(** The shape of a model-version body the script relies on: an object
    whose "files" entry, when there is one, is null or a list of objects
    with a "name" that is null or a string and "hashes" that is an object
    whose "SHA256" is a string. *)
Module Schema.

Definition name_ok (v : option value) : bool :=
  match v with
  | None | Some VNone | Some (VStr _) => true
  | Some _ => false
  end.

Definition hashes_ok (v : option value) : bool :=
  match v with
  | None => true
  | Some (VDict h) =>
      match Val.assoc "SHA256" h with
      | None | Some (VStr _) => true
      | Some _ => false
      end
  | Some _ => false
  end.

Definition file_ok (v : value) : bool :=
  match v with
  | VDict d => name_ok (Val.assoc "name" d) && hashes_ok (Val.assoc "hashes" d)
  | _ => false
  end.

Definition body_ok (data : value) : bool :=
  match data with
  | VDict d =>
      match Val.assoc "files" d with
      | None | Some VNone => true
      | Some (VList l) => forallb file_ok l
      | Some _ => false
      end
  | _ => false
  end.

Definition response_ok (r : http_outcome) : bool :=
  match r with
  | Response _ (Some data) => body_ok data
  | _ => true
  end.

End Schema.

(** Every body the endpoint sends has the expected shape. *)
Definition conforming (E : Env) : Prop :=
  forall url headers, Schema.response_ok (session_get E url headers) = true.

(** The tally of a batch: the two counters the loop over the identifiers
    of the list ends with, both zero for a list without identifiers;
    [None] when the loop is left by an exception. *)
Definition tally (E : Env) (self : PhoenixDownloader)
    (download_list model_type : string) (token : option string) (st : state)
  : option (nat * nat) :=
  match tally_loop E self (stripped_entries download_list) model_type token
          0 0 (loop_start self download_list model_type st) with
  | (Ok counts, _) => Some counts
  | (Raise _, _) => None
  end.

(** "The value returned is the tally": under some reading [as_pair] of the
    returned value, every batch that returns a value returns its tally. *)
Definition returns_the_tally : Prop :=
  exists as_pair : bool -> nat * nat,
    forall E self download_list model_type token st b st',
      process_civitai_downloads E self download_list model_type token st
      = (Ok b, st') ->
      tally E self download_list model_type token st = Some (as_pair b).

(** "resolve returns null or an artifact with a non-empty string for a
    filename". *)
Definition resolves_named (r : res (option model_info)) : Prop :=
  r = Ok None
  \/ exists info f,
       r = Ok (Some info) /\ filename info = VStr f /\ Py.truthy_str f = true.

(** ** Sample environments *)

Module Sample.

Definition dl : PhoenixDownloader := init false.

(** A model-version body with one file. *)
Definition one_file (name : string) (sha256 : string) : value :=
  VDict [("id", VInt 1);
         ("files",
          VList [VDict [("name", VStr name);
                        ("hashes", VDict [("SHA256", VStr sha256)])]])].

Definition newline : string := String (ascii_of_nat 10) EmptyString.

(** [s] without its first [n] characters. *)
Fixpoint drop_chars (n : nat) (s : string) : string :=
  match n, s with
  | S n', String _ r => drop_chars n' r
  | _, _ => s
  end.

(** Tools that succeed: [aria2c] writes the file named by its [--dir=] and
    [--out=] arguments, [sha256sum] prints [digest] for a file that is
    there. *)
Definition tools (digest : string) (cmd : list string)
    (d : gmap string string) : completed :=
  match cmd with
  | "aria2c" :: args =>
      match args with
      | [_; _; _; _; _; _; _; dir_arg; out_arg; _] =>
          {| returncode := 0; stdout := "";
             disk_after :=
               <[path_join (drop_chars 6 dir_arg) (drop_chars 6 out_arg)
                 := "weights"]> d |}
      | _ => {| returncode := 1; stdout := ""; disk_after := d |}
      end
  | ["sha256sum"; path] =>
      match d !! path with
      | Some _ =>
          {| returncode := 0;
             stdout := digest +:+ "  " +:+ path +:+ newline;
             disk_after := d |}
      | None => {| returncode := 1; stdout := ""; disk_after := d |}
      end
  | _ => {| returncode := 1; stdout := ""; disk_after := d |}
  end.

Definition env (http : string -> http_outcome)
    (run : list string -> gmap string string -> completed)
    (models : option node) : Env :=
  {| session_get := fun url _ => http url;
     subprocess_run := run;
     environ_STORAGE_ROOT := None;
     tree_at := fun p => if String.eqb p "/workspace/models" then models else None;
     rglob_compound := fun _ _ => Ok [];
     str_of := fun _ => "" |}.

Definition empty_models : option node := Some (Dir true true []).

(** Identifier 111 resolves to a.safetensors with a digest, 222 is not
    found. *)
Definition http_111 (url : string) : http_outcome :=
  if String.eqb url (api_url "111")
  then Response 200 (Some (one_file "a.safetensors" "ABC123"))
  else Response 404 None.

(** What identifier 111 resolves to. *)
Definition info_111 : model_info :=
  {| filename := VStr "a.safetensors";
     download_url :=
       "https://civitai.com/api/download/models/111?type=Model&format=SafeTensor";
     hash := "abc123" |}.

(** The end-to-end scenario: the digest of the download matches. *)
Definition scenario : Env := env http_111 (tools "abc123") empty_models.

(** The same, with a download whose digest differs. *)
Definition corrupted : Env := env http_111 (tools "ffffff") empty_models.

(** No request gets through. *)
Definition offline : Env :=
  env (fun _ => RequestFailed) (tools "abc123") empty_models.

(** The first file carries no digest. *)
Definition undigested : Env :=
  env (fun _ => Response 200
                  (Some (VDict [("files",
                                 VList [VDict [("name", VStr "a.safetensors")]])])))
      (tools "abc123") empty_models.

(** The first file has no name. *)
Definition nameless : Env :=
  env (fun _ => Response 200
                  (Some (VDict [("files",
                                 VList [VDict [("hashes",
                                                VDict [("SHA256", VStr "AB")])]])])))
      (tools "abc123") empty_models.

Definition info_undigested : model_info :=
  {| filename := VStr "a.safetensors";
     download_url :=
       "https://civitai.com/api/download/models/5?type=Model&format=SafeTensor";
     hash := "" |}.

Definition info_nameless : model_info :=
  {| filename := VNone;
     download_url :=
       "https://civitai.com/api/download/models/1?type=Model&format=SafeTensor";
     hash := "ab" |}.

(** A models tree that holds checkpoints/v[1].safetensors. *)
Definition bracket_models : option node :=
  Some (Dir true true
          [("checkpoints", Dir true true [("v[1].safetensors", File)]);
           ("loras", Dir true true [])]).

Definition bracket : Env :=
  env (fun _ => Response 200 (Some (one_file "v[1].safetensors" "")))
      (tools "abc123") bracket_models.

(** A models tree that holds a.safetensors two levels down. *)
Definition stocked_models : option node :=
  Some (Dir true true
          [("checkpoints",
            Dir true true
              [("sdxl", Dir true true [("a.safetensors", File)])])]).

Definition stocked : Env := env http_111 (tools "abc123") stocked_models.

(** Bodies outside the expected shape. *)
Definition files_object : value :=
  VDict [("files", VDict [("primary", VDict [("name", VStr "a.safetensors")])])].

Definition files_number : value := VDict [("files", VInt 5)].

Definition null_hashes : value :=
  VDict [("files",
          VList [VDict [("name", VStr "a.safetensors"); ("hashes", VNone)]])].

Definition answering (data : value) : Env :=
  env (fun _ => Response 200 (Some data)) (tools "abc123") empty_models.

End Sample.

(** ** The entry point *)

(** What the debug summary of [main] finds in the staging directory, given
    the files on disk: the directory may be gone, the scan
    [list(download_tmp_dir.rglob('*'))] may raise, or it yields paths, of
    which [files] are the regular files, in the order of the scan. *)
Inductive listing : Type :=
  | NoDirectory
  | Listed (files : list string)
  | ListingError.

(** The process around [main]: its environment variables (the variable
    STORAGE_ROOT is [environ_STORAGE_ROOT] of [Env]) and the scan of the
    staging directory. *)
Record Process : Type := {
  getenv : string -> option string;
  staging_files : gmap string string -> listing
}.

(** [os.getenv(name, default)] *)
Definition os_getenv (P : Process) (name default : string) : string :=
  match getenv P name with Some v => v | None => default end.

(** [s or '<empty>'] *)
Definition or_empty (s : string) : string :=
  if Py.truthy_str s then s else "<empty>".

(** The [for file in files[:10]] loop of the debug summary. *)
Fixpoint show_files (E : Env) (self : PhoenixDownloader) (files : list string)
  : M unit :=
  match files with
  | [] => ret tt
  | file :: rest =>
      size_result <- run E ["ls"; "-lh"; file] false ;;
      (if Z.eqb (returncode size_result) 0
       then log self ("  " +:+ Py.strip (stdout size_result)) true
       else ret tt) ;;;
      show_files E self rest
  end.

(** Lines 284-308 of [main]: the debug summary.  The text of a caught
    exception is not modelled. *)
Definition debug_summary (E : Env) (P : Process) (self : PhoenixDownloader)
  : M unit :=
  log self "=== DOWNLOAD SUMMARY ===" true ;;;
  (fun st =>
     match staging_files P (disk st) with
     | NoDirectory => ret tt st
     | ListingError => log self "Error generating summary: ..." true st
     | Listed files =>
         try_except
           (match files with
            | _ :: _ =>
                log self "Downloaded files:" true ;;;
                show_files E self (List.firstn 10 files) ;;;
                size_result <- run E ["du"; "-sh"; download_tmp_dir self] false ;;
                if Z.eqb (returncode size_result) 0 then
                  match Py.split_ws (stdout size_result) with
                  | total_size :: _ =>
                      log self ("Total download size: " +:+ total_size) true
                  | [] => raise IndexError
                  end
                else ret tt
            | [] => log self "No files downloaded" true
            end)
           any_exception
           (log self "Error generating summary: ..." true) st
     end) ;;;
  log self "=== END SUMMARY ===" true.

(** [main] *)
Definition main (E : Env) (P : Process) : M unit :=
  let debug_mode :=
    String.eqb (Py.lower (os_getenv P "DEBUG_MODE" "false")) "true" in
  let hf_repos := os_getenv P "HF_REPOS_TO_DOWNLOAD" "" in
  let hf_token := os_getenv P "HUGGINGFACE_TOKEN" "" in
  let civitai_token := os_getenv P "CIVITAI_TOKEN" "" in
  let civitai_checkpoints := os_getenv P "CIVITAI_CHECKPOINTS_TO_DOWNLOAD" "" in
  let civitai_loras := os_getenv P "CIVITAI_LORAS_TO_DOWNLOAD" "" in
  let civitai_vaes := os_getenv P "CIVITAI_VAES_TO_DOWNLOAD" "" in
  let downloader := init debug_mode in
  log downloader "Initializing Python download manager..." false ;;;
  (if debug_mode then
     log downloader "Debug mode enabled - showing detailed progress" true ;;;
     log downloader ("HF_REPOS_TO_DOWNLOAD: " +:+ or_empty hf_repos) true ;;;
     log downloader
       ("CIVITAI_CHECKPOINTS_TO_DOWNLOAD: " +:+ or_empty civitai_checkpoints)
       true ;;;
     log downloader ("CIVITAI_LORAS_TO_DOWNLOAD: " +:+ or_empty civitai_loras)
       true ;;;
     log downloader ("CIVITAI_VAES_TO_DOWNLOAD: " +:+ or_empty civitai_vaes)
       true
   else ret tt) ;;;
  download_hf_repos E downloader hf_repos (Some hf_token) ;;;
  process_civitai_downloads E downloader civitai_checkpoints "Checkpoint"
    (Some civitai_token) ;;;
  process_civitai_downloads E downloader civitai_loras "LoRA"
    (Some civitai_token) ;;;
  process_civitai_downloads E downloader civitai_vaes "VAE"
    (Some civitai_token) ;;;
  log downloader "All downloads complete." false ;;;
  if debug_mode then debug_summary E P downloader else ret tt.

(** ** Vocabulary of the further statements *)

(** The [huggingface-cli] command line of [download_hf_repos]. *)
Definition hf_cmd (self : PhoenixDownloader) (repo_id : string)
    (token : option string) : list string :=
  let base :=
    [ "huggingface-cli"; "download"; repo_id; "--local-dir";
      path_join (download_tmp_dir self) repo_id;
      "--local-dir-use-symlinks"; "False"; "--resume-download" ] in
  if truthy_token token then base ++ ["--token"; token_text token] else base.

(** The metadata requests of a trace. *)
Definition is_request (e : event) : bool :=
  match e with HttpGet _ _ => true | _ => false end.

Definition requests (tr : list event) : list event :=
  List.filter is_request tr.

(** What the repository batch may do: start [huggingface-cli], and [du] in
    debug mode. *)
Definition hf_event (self : PhoenixDownloader) (e : event) : Prop :=
  match e with
  | Spawn (t :: _) =>
      t = "huggingface-cli" \/ (t = "du" /\ debug_mode self = true)
  | _ => False
  end.

(** What a model batch may do: ask the model-versions endpoint with the
    headers of its token, start [aria2c] or [sha256sum], unlink a file. *)
Definition civitai_event (token : option string) (e : event) : Prop :=
  match e with
  | HttpGet url headers =>
      Py.is_prefix "https://civitai.com/api/v1/model-versions/" url = true
      /\ headers = auth_headers token
  | Spawn (t :: _) => t = "aria2c" \/ t = "sha256sum"
  | Spawn [] => False
  | Unlink _ => True
  end.

(** An event other than a request. *)
Definition local_event (e : event) : Prop := is_request e = false.

(** What the debug summary may do: start [ls] and [du]. *)
Definition summary_event (e : event) : Prop :=
  match e with
  | Spawn (t :: _) => t = "ls" \/ t = "du"
  | _ => False
  end.

(** Debug mode as [main] reads it. *)
Definition debug_requested (P : Process) : bool :=
  String.eqb (Py.lower (os_getenv P "DEBUG_MODE" "false")) "true".

(** What [main] may do: what the repository batch and the model batches
    may do, the latter with the token of CIVITAI_TOKEN, and in debug mode
    what the summary may do. *)
Definition main_event (P : Process) (e : event) : Prop :=
  hf_event (init (debug_requested P)) e
  \/ civitai_event (Some (os_getenv P "CIVITAI_TOKEN" "")) e
  \/ (debug_requested P = true /\ summary_event e).

(** A line that is not a debug line. *)
Definition terse (l : string) : Prop :=
  Py.is_prefix "  [DOWNLOAD] " l = true.

(** An action only appends to the trace and to the output, whatever its
    outcome, and what it appends satisfies [Qe] and [Ql]. *)
Definition appends {A : Type} (Qe : event -> Prop) (Ql : string -> Prop)
    (m : M A) : Prop :=
  forall st, exists evs lines,
    trace (snd (m st)) = trace st ++ evs
    /\ out (snd (m st)) = out st ++ lines
    /\ Forall Qe evs /\ Forall Ql lines.

(** No comma in a string. *)
Definition comma_free (s : string) : bool := negb (Py.has_char "," s).

(** A list variable of [main] that is unset or empty. *)
Definition unset (P : Process) (name : string) : Prop :=
  getenv P name = None \/ getenv P name = Some "".

(** ** Further sample environments *)

Module More.

(** A transfer tool that gives up, leaving part of the file. *)
Definition broken_transfer (cmd : list string) (d : gmap string string)
  : completed :=
  match cmd with
  | "aria2c" :: _ =>
      {| returncode := 3; stdout := "";
         disk_after := <["/workspace/downloads_tmp/a.safetensors" := "wei"]> d |}
  | _ => {| returncode := 1; stdout := ""; disk_after := d |}
  end.

Definition interrupted : Env :=
  Sample.env Sample.http_111 broken_transfer Sample.empty_models.

(** A repository tool that fails on the repository org/gated and succeeds
    on the others. *)
Definition hf_tool (cmd : list string) (d : gmap string string) : completed :=
  match cmd with
  | "huggingface-cli" :: _ :: repo :: _ =>
      if String.eqb repo "org/gated"
      then {| returncode := 1; stdout := ""; disk_after := d |}
      else {| returncode := 0; stdout := "";
              disk_after := <["/workspace/downloads_tmp/" +:+ repo := "repo"]> d |}
  | _ => {| returncode := 1; stdout := ""; disk_after := d |}
  end.

Definition hub : Env :=
  Sample.env (fun _ => RequestFailed) hf_tool Sample.empty_models.

(** A process with the variables of [bindings] set. *)
Definition process (bindings : list (string * string)) : Process :=
  {| getenv := fun name =>
       match List.find (fun b => String.eqb (fst b) name) bindings with
       | Some b => Some (snd b)
       | None => None
       end;
     staging_files := fun _ => NoDirectory |}.

End More.

(** * Properties *)

(** ** Identifier lists *)

Lemma truthy_str_false (s : string) :
  Py.truthy_str s = false <-> s = EmptyString.
Proof. destruct s; simpl; split; congruence. Qed.

Lemma blank_lstrip (s : string) : blank (Py.lstrip s) = blank s.
Proof.
  induction s as [|c r IH]; [reflexivity|].
  simpl. destruct (Py.is_space c) eqn:Hc.
  - rewrite IH. unfold blank at 2. simpl. rewrite Hc. reflexivity.
  - reflexivity.
Qed.

Lemma truthy_rstrip (s : string) :
  Py.truthy_str (Py.rstrip s) = negb (blank s).
Proof.
  induction s as [|c r IH]; [reflexivity|].
  unfold blank in *. simpl. rewrite IH.
  destruct (Py.is_space c), (forallb Py.is_space (Py.chars r)); reflexivity.
Qed.

Lemma truthy_strip (s : string) :
  Py.truthy_str (Py.strip s) = negb (blank s).
Proof. unfold Py.strip. rewrite truthy_rstrip, blank_lstrip. reflexivity. Qed.

Lemma first_char_lstrip (s : string) :
  is_space_opt (first_char (Py.lstrip s)) = false.
Proof.
  induction s as [|c r IH]; [reflexivity|].
  simpl. destruct (Py.is_space c) eqn:Hc; [exact IH|]. simpl. exact Hc.
Qed.

Lemma first_char_rstrip (s : string) :
  is_space_opt (first_char s) = false ->
  is_space_opt (first_char (Py.rstrip s)) = false.
Proof.
  destruct s as [|c r]; [reflexivity|].
  simpl. intros Hc. rewrite Hc. simpl. exact Hc.
Qed.

Lemma last_char_none (s : string) :
  last_char s = None <-> s = EmptyString.
Proof.
  destruct s as [|c r]; simpl; [tauto|].
  destruct (last_char r); split; congruence.
Qed.

Lemma last_char_rstrip (s : string) :
  is_space_opt (last_char (Py.rstrip s)) = false.
Proof.
  induction s as [|c r IH]; [reflexivity|].
  simpl. destruct (Py.is_space c) eqn:Hc; simpl.
  - destruct (Py.truthy_str (Py.rstrip r)) eqn:Hr; simpl; [|reflexivity].
    destruct (last_char (Py.rstrip r)) eqn:Hl; [exact IH|].
    apply last_char_none in Hl. rewrite Hl in Hr. discriminate.
  - destruct (last_char (Py.rstrip r)) eqn:Hl; [exact IH|]. simpl. exact Hc.
Qed.

Lemma edge_space_strip (s : string) : edge_space (Py.strip s) = false.
Proof.
  unfold edge_space, Py.strip.
  rewrite first_char_rstrip by apply first_char_lstrip.
  rewrite last_char_rstrip. reflexivity.
Qed.

Lemma stripped_entries_alt (lst : string) :
  stripped_entries lst =
  List.map Py.strip
    (List.filter (fun e => negb (blank e)) (Py.split_on "," lst)).
Proof.
  unfold stripped_entries. f_equal.
  apply List.filter_ext. intros e. apply truthy_strip.
Qed.

Lemma stripped_entries_truthy (lst : string) :
  Forall (fun x => Py.truthy_str x = true) (stripped_entries lst).
Proof.
  unfold stripped_entries.
  induction (Py.split_on "," lst) as [|e l IH]; simpl; [constructor|].
  destruct (Py.truthy_str (Py.strip e)) eqn:He; simpl; auto.
Qed.

(** C8. The list handed to the loops is the comma-separated input with its
    blank (empty or whitespace-only) entries dropped and every other entry
    stripped: no retained identifier is empty or has whitespace at either
    end; ["a, ,b"] gives exactly ["a"] and ["b"]. *)
Theorem stripped_entries_drop_blank (lst : string) :
  stripped_entries lst =
    List.map Py.strip
      (List.filter (fun e => negb (blank e)) (Py.split_on "," lst))
  /\ Forall (fun x => Py.truthy_str x = true /\ edge_space x = false)
       (stripped_entries lst)
  /\ stripped_entries "a, ,b" = ["a"; "b"].
Proof.
  split; [apply stripped_entries_alt|]. split; [|reflexivity].
  rewrite stripped_entries_alt.
  induction (Py.split_on "," lst) as [|e l IH]; simpl; [constructor|].
  destruct (blank e) eqn:He; simpl; [exact IH|].
  constructor; [|exact IH]. split.
  - rewrite truthy_strip, He. reflexivity.
  - apply edge_space_strip.
Qed.

(** ** Running the methods *)

Lemma printed_nil (st : state) : printed st [] = st.
Proof. destruct st; unfold printed; simpl. rewrite app_nil_r. reflexivity. Qed.

Lemma log_printed (self : PhoenixDownloader) (m : string) (d : bool)
    (st : state) :
  log self m d st = (Ok tt, printed st (log_lines self m d)).
Proof.
  unfold log, log_lines.
  destruct (d && negb (debug_mode self)); [rewrite printed_nil|]; reflexivity.
Qed.

Lemma bind_log {B : Type} (self : PhoenixDownloader) (m : string) (d : bool)
    (k : unit -> M B) (st : state) :
  bind (log self m d) k st = k tt (printed st (log_lines self m d)).
Proof. unfold bind. rewrite log_printed. reflexivity. Qed.

(** Closes a goal [exists lines, (r, st1) = (r, st2)] where the two states
    differ by how the printed lines are grouped. *)
Ltac settle_lines :=
  unfold printed, ret; simpl; rewrite <- ?app_assoc; simpl;
  eexists; reflexivity.

Lemma contains_raises (k : string) (v : value) (e : exn) :
  Val.contains k v = Raise e -> is_RequestException e = false.
Proof. destruct v; simpl; intros H; inversion H; reflexivity. Qed.

Lemma getitem_raises (k : string) (v : value) (e : exn) :
  Val.getitem k v = Raise e -> is_RequestException e = false.
Proof.
  destruct v; simpl; try (intros H; inversion H; reflexivity).
  destruct (Val.assoc k d); intros H; inversion H; reflexivity.
Qed.

Lemma first_raises (v : value) (e : exn) :
  Val.first v = Raise e -> is_RequestException e = false.
Proof.
  destruct v as [| | |[|c r]|[|x l]|d]; simpl; intros H; inversion H;
    reflexivity.
Qed.

Lemma get_raises (k : string) (d v : value) (e : exn) :
  Val.get k d v = Raise e -> is_RequestException e = false.
Proof. destruct v; simpl; intros H; inversion H; reflexivity. Qed.

Lemma lower_raises (v : value) (e : exn) :
  Val.lower v = Raise e -> is_RequestException e = false.
Proof. destruct v; simpl; intros H; inversion H; reflexivity. Qed.

Create HintDb raises.
#[local] Hint Resolve contains_raises getitem_raises first_raises get_raises
  lower_raises : raises.

Lemma rbind_raise {A B : Type} (r : res A) (k : A -> res B) (e : exn) :
  rbind r k = Raise e ->
  r = Raise e \/ exists a, r = Ok a /\ k a = Raise e.
Proof.
  destruct r as [a|e']; simpl; intros H; [right; eauto|left; congruence].
Qed.

Ltac split_rbind H :=
  let a := fresh "a" in
  let Ha := fresh "Ha" in
  apply rbind_raise in H; destruct H as [H|(a & Ha & H)];
  [eauto with raises|].

(** The exceptions of the JSON handling are not the ones the resolver
    catches. *)
Lemma first_file_raises (model_id : string) (data : value) (e : exn) :
  first_file model_id data = Raise e -> is_RequestException e = false.
Proof.
  unfold first_file. intros H.
  split_rbind H. split_rbind H.
  { destruct a; [split_rbind H|]; discriminate. }
  destruct a0; [|discriminate].
  repeat split_rbind H. discriminate.
Qed.

Lemma get_civitai_model_info_answer (E : Env) (self : PhoenixDownloader)
    (model_id : string) (token : option string) (st : state) :
  exists lines,
    get_civitai_model_info E self model_id token st =
    (answer E model_id token,
     {| disk := disk st; trace := trace st ++ [lookup model_id token];
        out := out st ++ lines |}).
Proof.
  unfold answer, get_civitai_model_info, lookup.
  rewrite !bind_log.
  unfold try_except, bind at 1 3, get_and_raise_for_status.
  fold (api_url model_id). fold (auth_headers token).
  destruct (session_get E (api_url model_id) (auth_headers token))
    as [|code body].
  - simpl. rewrite !bind_log. settle_lines.
  - destruct (Z.leb 400 code && Z.ltb code 600).
    + simpl. rewrite !bind_log. settle_lines.
    + unfold bind, lift, json, ret, raise. simpl.
      destruct (Z.eqb code 200).
      2:{ simpl. rewrite !log_printed. settle_lines. }
      destruct body as [data|].
      2:{ simpl. rewrite !log_printed. settle_lines. }
      destruct (first_file model_id data) as [[info|]|e] eqn:Hff; simpl.
      * settle_lines.
      * rewrite !log_printed. settle_lines.
      * rewrite (first_file_raises _ _ _ Hff). settle_lines.
Qed.

Lemma resolution_answer (E : Env) (self : PhoenixDownloader)
    (model_id : string) (token : option string) :
  resolution E self model_id token = answer E model_id token.
Proof.
  unfold resolution.
  destruct (get_civitai_model_info_answer E self model_id token st0)
    as [lines ->].
  reflexivity.
Qed.

Lemma get_civitai_model_info_run (E : Env) (self : PhoenixDownloader)
    (model_id : string) (token : option string) (st : state) :
  exists lines,
    get_civitai_model_info E self model_id token st =
    (resolution E self model_id token,
     {| disk := disk st; trace := trace st ++ [lookup model_id token];
        out := out st ++ lines |}).
Proof.
  rewrite resolution_answer. apply get_civitai_model_info_answer.
Qed.

Lemma run_eq (E : Env) (cmd : list string) (check : bool) (st : state) :
  run E cmd check st =
  (if check && negb (Z.eqb (returncode (subprocess_run E cmd (disk st))) 0)
   then Raise CalledProcessError
   else Ok (subprocess_run E cmd (disk st)),
   {| disk := disk_after (subprocess_run E cmd (disk st));
      trace := trace st ++ [Spawn cmd]; out := out st |}).
Proof.
  unfold run.
  destruct (check && negb (Z.eqb (returncode (subprocess_run E cmd (disk st))) 0));
    reflexivity.
Qed.

(** [_verify_checksum] always answers; it never raises. *)
Lemma _verify_checksum_run (E : Env) (path expected : string) (st : state) :
  _verify_checksum E path expected st =
  (Ok (verdict (subprocess_run E ["sha256sum"; path] (disk st)) expected),
   {| disk := disk_after (subprocess_run E ["sha256sum"; path] (disk st));
      trace := trace st ++ [Spawn ["sha256sum"; path]]; out := out st |}).
Proof.
  unfold _verify_checksum, try_except, bind, verdict, computed_digest.
  rewrite run_eq. simpl.
  destruct (Z.eqb (returncode (subprocess_run E ["sha256sum"; path] (disk st))) 0);
    simpl; [|reflexivity].
  destruct (Py.split_ws (stdout (subprocess_run E ["sha256sum"; path] (disk st))));
    reflexivity.
Qed.

(** ** One identifier: the paths through [download_civitai_model] *)

Ltac begin_download id_given :=
  unfold download_civitai_model; rewrite id_given; cbn [negb]; cbv iota;
  rewrite bind_log; unfold bind at 1;
  match goal with
  | |- context [get_civitai_model_info ?E ?s ?i ?t ?st] =>
      let l := fresh "l" in
      destruct (get_civitai_model_info_run E s i t st) as [l ->]
  end.

Ltac unfold_names :=
  unfold summed, fetched, transfer_cmd, checksum_cmd, staged_path, lookup in *.

Section OneIdentifier.

Variable E : Env.
Variable self : PhoenixDownloader.
Variables (model_id model_type : string) (token : option string).
Variable st : state.

Hypothesis id_given : Py.truthy_str model_id = true.

Lemma download_raises (e : exn) :
  resolution E self model_id token = Raise e ->
  exists lines,
    download_civitai_model E self model_id model_type token st =
    (Raise e,
     {| disk := disk st; trace := trace st ++ [lookup model_id token];
        out := out st ++ lines |}).
Proof.
  intros Hres. begin_download id_given. rewrite Hres. settle_lines.
Qed.

Lemma download_no_metadata :
  resolution E self model_id token = Ok None ->
  exists lines,
    download_civitai_model E self model_id model_type token st =
    (Ok false,
     {| disk := disk st; trace := trace st ++ [lookup model_id token];
        out := out st ++ lines |}).
Proof.
  intros Hres. begin_download id_given. rewrite Hres.
  rewrite bind_log. settle_lines.
Qed.

Variable info : model_info.
Hypothesis resolved : resolution E self model_id token = Ok (Some info).

Lemma download_unnamed :
  Val.truthy (filename info) = false ->
  exists lines,
    download_civitai_model E self model_id model_type token st =
    (Ok false,
     {| disk := disk st; trace := trace st ++ [lookup model_id token];
        out := out st ++ lines |}).
Proof.
  intros Hname. begin_download id_given. rewrite resolved, Hname. cbn [negb].
  cbv iota. rewrite bind_log. settle_lines.
Qed.

Lemma download_skipped :
  Val.truthy (filename info) = true ->
  _file_exists_in_models E (models_dir E) (filename info) = true ->
  exists lines,
    download_civitai_model E self model_id model_type token st =
    (Ok true,
     {| disk := disk st; trace := trace st ++ [lookup model_id token];
        out := out st ++ lines |}).
Proof.
  intros Hname Hfound. begin_download id_given.
  rewrite resolved, Hname. cbn [negb]. cbv iota.
  rewrite !bind_log, Hfound. cbv iota. rewrite bind_log. settle_lines.
Qed.

Variable f : string.
Hypothesis named : filename info = VStr f.
Hypothesis named_nonempty : Py.truthy_str f = true.
Hypothesis absent : _file_exists_in_models E (models_dir E) (VStr f) = false.

Ltac begin_transfer :=
  begin_download id_given; rewrite resolved, named; cbn [Val.truthy];
  rewrite named_nonempty; cbn [negb]; cbv iota;
  rewrite !bind_log, absent; cbv iota; rewrite bind_log;
  unfold try_except, bind;
  destruct (debug_mode self) eqn:Hdbg; rewrite ?log_printed;
  unfold ret at 1; rewrite run_eq; cbn [disk printed].

Lemma download_tool_failed :
  returncode (fetched E self info f token st) <> 0%Z ->
  exists lines,
    download_civitai_model E self model_id model_type token st =
    (Ok false,
     {| disk := disk_after (fetched E self info f token st);
        trace := trace st ++ [lookup model_id token;
                              Spawn (transfer_cmd E self info f token)];
        out := out st ++ lines |}).
Proof.
  intros Hrc. apply Z.eqb_neq in Hrc. unfold_names.
  begin_transfer; rewrite Hrc; simpl; rewrite ?log_printed; settle_lines.
Qed.

Lemma download_unverified :
  returncode (fetched E self info f token st) = 0%Z ->
  Py.truthy_str (hash info) = false ->
  exists lines,
    download_civitai_model E self model_id model_type token st =
    (Ok true,
     {| disk := disk_after (fetched E self info f token st);
        trace := trace st ++ [lookup model_id token;
                              Spawn (transfer_cmd E self info f token)];
        out := out st ++ lines |}).
Proof.
  intros Hrc Hhash. unfold_names.
  begin_transfer; rewrite Hrc; simpl; rewrite Hhash, ?log_printed; simpl;
    rewrite ?log_printed; settle_lines.
Qed.

Lemma download_verified :
  returncode (fetched E self info f token st) = 0%Z ->
  Py.truthy_str (hash info) = true ->
  exists lines,
    download_civitai_model E self model_id model_type token st =
    (Ok (verdict (summed E self info f token st) (hash info)),
     {| disk :=
          if verdict (summed E self info f token st) (hash info)
          then disk_after (summed E self info f token st)
          else delete (staged_path self f)
                 (disk_after (summed E self info f token st));
        trace :=
          trace st
          ++ [lookup model_id token;
              Spawn (transfer_cmd E self info f token);
              Spawn (checksum_cmd self f)]
          ++ (if verdict (summed E self info f token st) (hash info)
              then [] else [Unlink (staged_path self f)]);
        out := out st ++ lines |}).
Proof.
  intros Hrc Hhash. unfold_names.
  begin_transfer; rewrite Hrc; simpl; rewrite Hhash; unfold ret at 1;
    rewrite _verify_checksum_run; cbn [disk trace out];
    match goal with
    | |- context [verdict ?r ?h] => destruct (verdict r h)
    end;
    rewrite ?log_printed; simpl; rewrite ?log_printed;
    unfold unlink_missing_ok; settle_lines.
Qed.

End OneIdentifier.

(** ** The existence check *)

Lemma name_matches_plain (f name : string) :
  plain_name f = true -> Glob.name_matches f name = String.eqb f name.
Proof.
  unfold plain_name, Glob.name_matches. intros H.
  apply andb_true_iff in H as [_ H]. apply negb_true_iff in H.
  rewrite H. reflexivity.
Qed.

Lemma plain_not_wildcard (f : string) :
  plain_name f = true -> Glob.is_wildcard_pattern f = false.
Proof.
  unfold plain_name. intros H. apply andb_true_iff in H as [_ H].
  apply negb_true_iff in H. exact H.
Qed.

Lemma one_component_relative (pat : string) :
  Glob.one_component pat = true -> Py.is_prefix "/" pat = false.
Proof.
  unfold Glob.one_component. intros Hone.
  destruct pat as [|c r]; [discriminate|].
  repeat (apply andb_true_iff in Hone as [Hone ?]).
  cbn [Py.is_prefix]. rewrite andb_true_r.
  destruct (Ascii.eqb "/" c) eqn:Hc; [|reflexivity].
  unfold Py.has_char in *. cbn [Py.chars existsb] in *.
  rewrite Hc in *. discriminate.
Qed.

(** A scan that meets nothing it cannot examine is a search for a regular
    file. *)
Lemma first_file_among_examinable (paths : list node) :
  forallb Glob.examinable paths = true ->
  first_file_among paths = Ok (existsb regular paths).
Proof.
  induction paths as [|n rest IH]; [reflexivity|].
  cbn [forallb]. intros H. apply andb_true_iff in H as [Hn Hrest].
  destruct n; try discriminate; cbn [first_file_among is_file rbind regular existsb orb];
    try reflexivity; apply IH; exact Hrest.
Qed.

(** The matches of a plain name in one directory. *)
Lemma own_matches_plain (f : string) (es : list (string * node)) :
  plain_name f = true ->
  existsb regular
    (List.filter Glob.examinable
       (List.map snd
          (List.filter (fun e => Glob.name_matches f (fst e)) es))) =
  existsb (fun e => String.eqb f (fst e) && regular (snd e)) es.
Proof.
  intros Hplain.
  induction es as [|[nm c] es IH]; [reflexivity|].
  cbn [List.filter fst snd existsb]. rewrite (name_matches_plain f nm Hplain).
  destruct (String.eqb f nm); [|exact IH].
  cbn [List.map snd List.filter andb].
  destruct c; cbn [Glob.examinable existsb regular orb];
    first [reflexivity | exact IH].
Qed.

(** With a plain name, everything the walk yields can be examined. *)
Lemma walk_plain_examinable (f : string) :
  Glob.is_wildcard_pattern f = false ->
  forall n, forallb Glob.examinable (Glob.walk f n) = true.
Proof.
  intros Hw. fix IH 1. intros [| | |r x es]; try reflexivity.
  cbn [Glob.walk]. rewrite Hw. rewrite forallb_app. apply andb_true_iff. split.
  - destruct x; [|reflexivity].
    induction (List.map snd
                 (List.filter (fun e => Glob.name_matches f (fst e)) es))
      as [|c l IHl]; [reflexivity|].
    cbn [List.filter]. destruct (Glob.examinable c) eqn:Hc; [|exact IHl].
    cbn [forallb]. rewrite Hc. exact IHl.
  - destruct (r && x); [|reflexivity].
    induction es as [|[nm c] es IHes]; [reflexivity|].
    pose proof (IH c) as IHc.
    destruct c; try reflexivity; rewrite forallb_app, IHc; exact IHes.
Qed.

(** With a plain name, a regular file among the paths yielded is a regular
    file of that name somewhere in the tree. *)
Lemma walk_plain_sound (f : string) :
  plain_name f = true ->
  forall n, existsb regular (Glob.walk f n) = true -> present f n = true.
Proof.
  intros Hplain. pose proof (plain_not_wildcard f Hplain) as Hw.
  fix IH 1. intros [| | |r x es]; try discriminate.
  cbn [Glob.walk present]. rewrite Hw, existsb_app.
  intros H. apply orb_true_iff in H as [H|H]; apply orb_true_iff.
  - left. destruct x; [|discriminate].
    rewrite own_matches_plain in H by exact Hplain. exact H.
  - right. destruct (r && x); [|discriminate].
    induction es as [|[nm c] es IHes]; [discriminate|].
    pose proof (IH c) as IHc. cbn [existsb]. apply orb_true_iff.
    destruct c; try discriminate;
      rewrite existsb_app in H; apply orb_true_iff in H as [H|H];
      solve [left; apply IHc; exact H | right; apply IHes; exact H].
Qed.

(** In a tree without obstacles the walk misses nothing. *)
Lemma walk_plain_complete (f : string) :
  plain_name f = true ->
  forall n, unobstructed n = true ->
            existsb regular (Glob.walk f n) = present f n.
Proof.
  intros Hplain. pose proof (plain_not_wildcard f Hplain) as Hw.
  fix IH 1. intros [| | |r x es]; try reflexivity.
  cbn [Glob.walk present unobstructed]. rewrite Hw, existsb_app.
  intros H. apply andb_true_iff in H as [H Hes].
  apply andb_true_iff in H as [-> ->]. cbn [andb].
  rewrite own_matches_plain by exact Hplain. f_equal.
  induction es as [|[nm c] es IHes]; [reflexivity|].
  cbn [forallb] in Hes. apply andb_true_iff in Hes as [Hc Hes].
  pose proof (IH c Hc) as IHc. cbn [existsb].
  destruct c; try discriminate;
    rewrite existsb_app, IHc, (IHes Hes); reflexivity.
Qed.

(** The existence check on a plain name: a scan over paths that can all be
    examined. *)
Lemma file_exists_plain_walk (E : Env) (dir f : string) :
  plain_name f = true ->
  _file_exists_in_models E dir (VStr f) =
  match tree_at E dir with
  | Some n => existsb regular (Glob.walk f n)
  | None => false
  end.
Proof.
  intros Hplain. unfold _file_exists_in_models, rglob.
  pose proof Hplain as Hone. unfold plain_name in Hone.
  apply andb_true_iff in Hone as [Hone _].
  rewrite (one_component_relative f Hone).
  destruct (tree_at E dir) as [[| | |r x es]|]; try reflexivity.
  rewrite Hone. cbn [rbind].
  rewrite first_file_among_examinable; [reflexivity|].
  apply walk_plain_examinable, plain_not_wildcard, Hplain.
Qed.

(** The true part of the existence check.  On a plain name it never
    answers [true] without a regular file of that name in the tree, and it
    is exact when nothing in the tree is closed to the process. *)
Lemma file_exists_plain (E : Env) (dir f : string) :
  plain_name f = true ->
  (_file_exists_in_models E dir (VStr f) = true ->
   present_under f (tree_at E dir) = true)
  /\ (unobstructed_under (tree_at E dir) = true ->
      _file_exists_in_models E dir (VStr f) = present_under f (tree_at E dir)).
Proof.
  intros Hplain. rewrite (file_exists_plain_walk E dir f Hplain).
  unfold present_under, unobstructed_under.
  destruct (tree_at E dir) as [n|]; [|split; trivial].
  split.
  - apply walk_plain_sound, Hplain.
  - apply walk_plain_complete, Hplain.
Qed.

(** A root that is missing or is no directory: the check answers [false],
    whatever the name. *)
Lemma file_exists_no_directory (E : Env) (dir : string) (filename : value) :
  (forall listable searchable es,
     tree_at E dir <> Some (Dir listable searchable es)) ->
  _file_exists_in_models E dir filename = false.
Proof.
  intros Hroot. unfold _file_exists_in_models, rglob.
  destruct filename as [| | |pat| |]; try reflexivity.
  destruct (Py.is_prefix "/" pat); [reflexivity|].
  destruct (tree_at E dir) as [[| | |r x es]|]; try reflexivity.
  exfalso. apply (Hroot r x es). reflexivity.
Qed.

(** A scan of paths none of which can be examined finds nothing. *)
Lemma first_file_among_locked (paths : list node) :
  forallb (fun n => negb (Glob.examinable n)) paths = true ->
  match first_file_among paths with Ok found => found | Raise _ => false end
  = false.
Proof.
  destruct paths as [|n rest]; [reflexivity|].
  cbn [forallb]. intros H. apply andb_true_iff in H as [Hn _].
  destruct n; try discriminate. reflexivity.
Qed.

(** A root that cannot be searched: the check answers [false] for every
    name of one component, even when the root can be listed. *)
Lemma file_exists_unsearchable (E : Env) (dir pat : string)
    (listable : bool) (es : list (string * node)) :
  tree_at E dir = Some (Dir listable false es) ->
  Glob.one_component pat = true ->
  _file_exists_in_models E dir (VStr pat) = false.
Proof.
  intros Hroot Hone. unfold _file_exists_in_models, rglob.
  rewrite (one_component_relative pat Hone), Hroot, Hone. cbn [rbind].
  apply first_file_among_locked.
  cbn [Glob.walk]. rewrite andb_false_r, app_nil_r.
  destruct (Glob.is_wildcard_pattern pat); [|reflexivity].
  destruct listable; [|reflexivity].
  induction (List.map snd
               (List.filter (fun e => Glob.name_matches pat (fst e)) es))
    as [|c l IHl]; [reflexivity|exact IHl].
Qed.

(** ** Bodies of the expected shape *)

Lemma first_file_conforming (model_id : string) (data : value) :
  Schema.body_ok data = true ->
  first_file model_id data = Ok None
  \/ exists info,
       first_file model_id data = Ok (Some info)
       /\ (filename info = VNone \/ exists f, filename info = VStr f).
Proof.
  destruct data as [| | | | |d]; try discriminate.
  unfold Schema.body_ok, first_file, rbind, Val.contains, Val.getitem.
  destruct (Val.assoc "files" d) as [files|] eqn:Hfiles; [|left; reflexivity].
  destruct files as [| | | |l|]; try discriminate; [left; reflexivity|].
  destruct l as [|x l]; [left; reflexivity|].
  cbn [forallb Val.truthy Val.first]. intros Hok.
  apply andb_true_iff in Hok as [Hx _].
  destruct x as [| | | | |fd]; try discriminate.
  unfold Schema.file_ok in Hx. apply andb_true_iff in Hx as [Hname Hhashes].
  unfold Val.get.
  right.
  destruct (Val.assoc "hashes" fd) as [hs|]; cbn [Schema.hashes_ok] in Hhashes.
  - destruct hs as [| | | | |h]; try discriminate.
    destruct (Val.assoc "SHA256" h) as [sha|].
    + destruct sha as [| | |digest| |]; try discriminate.
      cbn [Val.lower]. eexists. split; [reflexivity|]. cbn [filename].
      destruct (Val.assoc "name" fd) as [[| | |nm| |]|]; try discriminate;
        eauto.
    + cbn [Val.lower]. eexists. split; [reflexivity|]. cbn [filename].
      destruct (Val.assoc "name" fd) as [[| | |nm| |]|]; try discriminate;
        eauto.
  - cbn [Val.assoc Val.lower]. eexists. split; [reflexivity|]. cbn [filename].
    destruct (Val.assoc "name" fd) as [[| | |nm| |]|]; try discriminate;
      eauto.
Qed.

Lemma resolution_conforming (E : Env) (self : PhoenixDownloader)
    (model_id : string) (token : option string) :
  conforming E ->
  resolution E self model_id token = Ok None
  \/ exists info,
       resolution E self model_id token = Ok (Some info)
       /\ (filename info = VNone \/ exists f, filename info = VStr f).
Proof.
  intros Hconf. rewrite resolution_answer. unfold answer.
  specialize (Hconf (api_url model_id) (auth_headers token)).
  destruct (session_get E (api_url model_id) (auth_headers token))
    as [|code body]; [left; reflexivity|].
  destruct (Z.leb 400 code && Z.ltb code 600); [left; reflexivity|].
  destruct (Z.eqb code 200); [|left; reflexivity].
  destruct body as [data|]; [|left; reflexivity].
  apply first_file_conforming. exact Hconf.
Qed.

(** On such bodies every identifier ends in success or failure. *)
Lemma download_total (E : Env) (self : PhoenixDownloader)
    (model_id model_type : string) (token : option string) (st : state) :
  conforming E ->
  exists b st',
    download_civitai_model E self model_id model_type token st = (Ok b, st').
Proof.
  intros Hconf.
  destruct (Py.truthy_str model_id) eqn:Hid.
  2:{ unfold download_civitai_model. rewrite Hid. eexists _, _. reflexivity. }
  destruct (resolution_conforming E self model_id token Hconf)
    as [Hnone|(info & Hsome & Hname)].
  { destruct (download_no_metadata E self model_id model_type token st Hid Hnone)
      as [lines ->]. eauto. }
  assert (Hunnamed : Val.truthy (filename info) = false ->
                     exists b st',
                       download_civitai_model E self model_id model_type token st
                       = (Ok b, st')).
  { intros Hfalse.
    destruct (download_unnamed E self model_id model_type token st Hid info
                Hsome Hfalse) as [lines ->]. eauto. }
  destruct Hname as [Hname|[f Hname]].
  { apply Hunnamed. rewrite Hname. reflexivity. }
  destruct (Py.truthy_str f) eqn:Hf.
  2:{ apply Hunnamed. rewrite Hname. exact Hf. }
  destruct (_file_exists_in_models E (models_dir E) (VStr f)) eqn:Hfound.
  { assert (Ht : Val.truthy (filename info) = true)
      by (rewrite Hname; exact Hf).
    assert (Hx : _file_exists_in_models E (models_dir E) (filename info) = true)
      by (rewrite Hname; exact Hfound).
    destruct (download_skipped E self model_id model_type token st Hid info
                Hsome Ht Hx) as [lines ->]. eauto. }
  destruct (Z.eq_dec (returncode (fetched E self info f token st)) 0%Z)
    as [Hrc|Hrc].
  2:{ destruct (download_tool_failed E self model_id model_type token st Hid
                  info Hsome f Hname Hf Hfound Hrc) as [lines ->]. eauto. }
  destruct (Py.truthy_str (hash info)) eqn:Hhash.
  - destruct (download_verified E self model_id model_type token st Hid
                info Hsome f Hname Hf Hfound Hrc Hhash) as [lines ->]. eauto.
  - destruct (download_unverified E self model_id model_type token st Hid
                info Hsome f Hname Hf Hfound Hrc Hhash) as [lines ->]. eauto.
Qed.

(** ** The batch *)

Lemma log_lines_plain (self : PhoenixDownloader) (m : string) :
  log_lines self m false = [line m].
Proof. reflexivity. Qed.

(** Each identifier adds one to exactly one counter. *)
Lemma tally_loop_sum (E : Env) (self : PhoenixDownloader)
    (model_type : string) (token : option string) (ids : list string) :
  forall successful failed st s f st',
    tally_loop E self ids model_type token successful failed st
    = (Ok (s, f), st') ->
    s + f = successful + failed + length ids.
Proof.
  induction ids as [|model_id rest IH]; intros successful failed st s f st'.
  - simpl. unfold ret. intros H. inversion H. subst. lia.
  - simpl. unfold bind at 1.
    destruct (download_civitai_model E self model_id model_type token st)
      as [[[|]|e] st1]; [| |discriminate].
    + intros H. apply IH in H. lia.
    + rewrite bind_log. intros H. apply IH in H. lia.
Qed.

Lemma tally_loop_total (E : Env) (self : PhoenixDownloader)
    (model_type : string) (token : option string) (ids : list string) :
  conforming E ->
  forall successful failed st,
    exists s f st',
      tally_loop E self ids model_type token successful failed st
      = (Ok (s, f), st').
Proof.
  intros Hconf.
  induction ids as [|model_id rest IH]; intros successful failed st.
  - simpl. unfold ret. eauto.
  - simpl. unfold bind at 1.
    destruct (download_total E self model_id model_type token st Hconf)
      as (b & st1 & ->).
    destruct b; [apply IH|]. rewrite bind_log. apply IH.
Qed.

(** A batch that ends returns [True] after printing the two counters of
    its loop. *)
Lemma process_ends (E : Env) (self : PhoenixDownloader)
    (download_list model_type : string) (token : option string)
    (st : state) (b : bool) (st' : state) :
  Py.truthy_str download_list = true ->
  process_civitai_downloads E self download_list model_type token st
  = (Ok b, st') ->
  b = true
  /\ exists s f st2,
       tally_loop E self (stripped_entries download_list) model_type token 0 0
         (loop_start self download_list model_type st)
       = (Ok (s, f), st2)
       /\ st' = printed st2 [line (summary_line model_type s f)]
       /\ s + f = length (stripped_entries download_list).
Proof.
  intros Hlist. unfold process_civitai_downloads. rewrite Hlist.
  cbn [negb]. cbv iota. rewrite !bind_log. unfold bind at 1.
  fold (loop_start self download_list model_type st).
  destruct (tally_loop E self (stripped_entries download_list) model_type
              token 0 0 (loop_start self download_list model_type st))
    as [[[s' f']|e] st1] eqn:Hloop; [|discriminate].
  rewrite bind_log. unfold ret. intros H. inversion H. subst.
  split; [reflexivity|]. exists s', f', st1. split; [reflexivity|].
  split; [reflexivity|].
  apply tally_loop_sum in Hloop. simpl in Hloop. exact Hloop.
Qed.

Lemma process_total (E : Env) (self : PhoenixDownloader)
    (download_list model_type : string) (token : option string) (st : state) :
  conforming E ->
  exists st',
    process_civitai_downloads E self download_list model_type token st
    = (Ok true, st').
Proof.
  intros Hconf. unfold process_civitai_downloads.
  destruct (Py.truthy_str download_list); cbn [negb]; cbv iota.
  - rewrite !bind_log. unfold bind at 1.
    match goal with
    | |- context [tally_loop ?E ?s ?ids ?ty ?tok ?a ?b ?st] =>
        destruct (tally_loop_total E s ty tok ids Hconf a b st)
          as (s' & f' & st1 & ->)
    end.
    rewrite bind_log. unfold ret. eauto.
  - rewrite bind_log. unfold ret. eauto.
Qed.

(** The repository loop never raises: a failing tool is logged. *)
Lemma download_hf_repo_total (E : Env) (self : PhoenixDownloader)
    (repo_id : string) (token : option string) (st : state) :
  exists st', download_hf_repo E self repo_id token st = (Ok tt, st').
Proof.
  unfold download_hf_repo. rewrite bind_log.
  destruct (truthy_token token); rewrite bind_log;
    unfold try_except, bind;
    destruct (debug_mode self); rewrite ?log_printed; unfold ret at 1;
    rewrite run_eq; cbn [andb];
    match goal with
    | |- context [negb (Z.eqb ?x 0)] => destruct (Z.eqb x 0)
    end; cbn [negb]; cbv iota; cbn [is_CalledProcessError];
    rewrite ?log_printed; cbv iota beta;
    rewrite ?log_printed; cbv iota beta; rewrite ?log_printed;
    cbv iota beta; rewrite ?log_printed;
    try (eexists; reflexivity).
  all: rewrite run_eq; cbn [andb]; cbv iota;
    match goal with
    | |- context [Z.eqb (returncode ?x) 0] =>
        destruct (Z.eqb (returncode x) 0)
    end;
    try (eexists; reflexivity);
    match goal with
    | |- context [Py.split_ws ?x] => destruct (Py.split_ws x)
    end;
    unfold raise; cbn [any_exception]; rewrite ?log_printed;
    eexists; reflexivity.
Qed.

Lemma hf_loop_total (E : Env) (self : PhoenixDownloader)
    (token : option string) (repos : list string) :
  forall st, exists st', hf_loop E self repos token st = (Ok tt, st').
Proof.
  induction repos as [|repo_id rest IH]; intros st.
  - simpl. unfold ret. eauto.
  - simpl. unfold bind at 1.
    destruct (download_hf_repo_total E self repo_id token st) as [st1 ->].
    apply IH.
Qed.

Lemma download_hf_repos_total (E : Env) (self : PhoenixDownloader)
    (repos_list : string) (token : option string) (st : state) :
  exists st', download_hf_repos E self repos_list token st = (Ok true, st').
Proof.
  unfold download_hf_repos.
  destruct (Py.truthy_str repos_list); cbn [negb]; cbv iota;
    rewrite bind_log.
  - unfold bind at 1.
    match goal with
    | |- context [hf_loop ?E ?s ?r ?t ?st] =>
        destruct (hf_loop_total E s t r st) as [st1 ->]
    end.
    unfold ret. eauto.
  - unfold ret. eauto.
Qed.

(** * The claims *)

(** C1. For a resolved artifact with a non-empty expected hash, once the
    transfer tool has exited with status 0 and the checksum tool has given
    a digest: the artifact is reported successful exactly when the digest
    equals the expected hash, both lower-cased, and the staged file then
    stays; otherwise the artifact is reported failed and the staged file is
    unlinked, which succeeds whether or not the file was there and leaves
    no file at that path. *)
Theorem checksum_decides (E : Env) (self : PhoenixDownloader)
    (model_id model_type : string) (token : option string) (st : state)
    (info : model_info) (f digest : string) :
  Py.truthy_str model_id = true ->
  resolution E self model_id token = Ok (Some info) ->
  filename info = VStr f ->
  Py.truthy_str f = true ->
  Py.truthy_str (hash info) = true ->
  _file_exists_in_models E (models_dir E) (VStr f) = false ->
  returncode (fetched E self info f token st) = 0%Z ->
  computed_digest (summed E self info f token st) = Some digest ->
  exists st',
    download_civitai_model E self model_id model_type token st
    = (Ok (String.eqb (Py.lower digest) (Py.lower (hash info))), st')
    /\ if String.eqb (Py.lower digest) (Py.lower (hash info))
       then disk st' = disk_after (summed E self info f token st)
            /\ trace st' =
               trace st ++ [lookup model_id token;
                            Spawn (transfer_cmd E self info f token);
                            Spawn (checksum_cmd self f)]
       else disk st' =
              delete (staged_path self f)
                (disk_after (summed E self info f token st))
            /\ disk st' !! staged_path self f = None
            /\ delete (staged_path self f) (disk st') = disk st'
            /\ trace st' =
               trace st ++ [lookup model_id token;
                            Spawn (transfer_cmd E self info f token);
                            Spawn (checksum_cmd self f);
                            Unlink (staged_path self f)].
Proof.
  intros Hid Hres Hname Hf Hhash Habsent Hrc Hdigest.
  destruct (download_verified E self model_id model_type token st Hid info
              Hres f Hname Hf Habsent Hrc Hhash) as [lines Hrun].
  assert (Hv : verdict (summed E self info f token st) (hash info)
               = String.eqb (Py.lower digest) (Py.lower (hash info))).
  { unfold verdict. rewrite Hdigest. reflexivity. }
  rewrite Hv in Hrun. rewrite Hrun. eexists. split; [reflexivity|].
  destruct (String.eqb (Py.lower digest) (Py.lower (hash info))); cbn [disk trace].
  - rewrite app_nil_r. split; reflexivity.
  - split; [reflexivity|]. split; [apply lookup_delete_eq|].
    split; [|reflexivity]. apply delete_id, lookup_delete_eq.
Qed.

Lemma checksum_decides_witness :
  (exists st',
     download_civitai_model Sample.scenario Sample.dl "111" "Checkpoint" None st0
     = (Ok true, st')
     /\ disk st' !! "/workspace/downloads_tmp/a.safetensors" = Some "weights")
  /\ (exists st',
        download_civitai_model Sample.corrupted Sample.dl "111" "Checkpoint"
          None st0
        = (Ok false, st')
        /\ disk st' !! "/workspace/downloads_tmp/a.safetensors" = None).
Proof.
  split.
  - destruct (checksum_decides Sample.scenario Sample.dl "111" "Checkpoint"
                None st0 Sample.info_111 "a.safetensors" "abc123")
      as (st' & Hrun & Hdisk & _); try reflexivity.
    exists st'. split; [exact Hrun|]. rewrite Hdisk. reflexivity.
  - destruct (checksum_decides Sample.corrupted Sample.dl "111" "Checkpoint"
                None st0 Sample.info_111 "a.safetensors" "ffffff")
      as (st' & Hrun & _ & Hgone & _ & _); try reflexivity.
    exists st'. split; [exact Hrun|exact Hgone].
Defined.

(** C4. For a resolved artifact without an expected hash (the resolver
    renders a missing digest as the empty string), a transfer that exits
    with status 0 is reported successful: the checksum tool is not run and
    nothing is unlinked; the trace grows by the metadata request and the
    transfer alone. *)
Theorem no_hash_no_verification (E : Env) (self : PhoenixDownloader)
    (model_id model_type : string) (token : option string) (st : state)
    (info : model_info) (f : string) :
  Py.truthy_str model_id = true ->
  resolution E self model_id token = Ok (Some info) ->
  filename info = VStr f ->
  Py.truthy_str f = true ->
  Py.truthy_str (hash info) = false ->
  _file_exists_in_models E (models_dir E) (VStr f) = false ->
  returncode (fetched E self info f token st) = 0%Z ->
  exists st',
    download_civitai_model E self model_id model_type token st = (Ok true, st')
    /\ disk st' = disk_after (fetched E self info f token st)
    /\ trace st' = trace st ++ [lookup model_id token;
                               Spawn (transfer_cmd E self info f token)]
    /\ spawns "sha256sum" (trace st') = spawns "sha256sum" (trace st).
Proof.
  intros Hid Hres Hname Hf Hhash Habsent Hrc.
  destruct (download_unverified E self model_id model_type token st Hid info
              Hres f Hname Hf Habsent Hrc Hhash) as [lines Hrun].
  rewrite Hrun. eexists. split; [reflexivity|]. cbn [disk trace].
  repeat split. unfold spawns. rewrite List.filter_app.
  cbn. apply app_nil_r.
Qed.

Lemma no_hash_no_verification_witness :
  resolution Sample.undigested Sample.dl "5" None
  = Ok (Some Sample.info_undigested)
  /\ exists st',
       download_civitai_model Sample.undigested Sample.dl "5" "VAE" None st0
       = (Ok true, st')
       /\ spawns "sha256sum" (trace st') = [].
Proof.
  split; [reflexivity|].
  destruct (no_hash_no_verification Sample.undigested Sample.dl "5" "VAE" None
              st0 Sample.info_undigested "a.safetensors")
    as (st' & Hrun & _ & _ & Hnone); try reflexivity.
  exists st'. split; [exact Hrun|exact Hnone].
Defined.

(** The part of C2 that holds: an artifact whose plain name (no "*", "?"
    or "[" in it) is present under a models directory in which nothing is
    closed to the process is reported successful with no tool started. *)
Lemma present_plain_skips (E : Env) (self : PhoenixDownloader)
    (model_id model_type : string) (token : option string) (st : state)
    (info : model_info) (f : string) :
  Py.truthy_str model_id = true ->
  resolution E self model_id token = Ok (Some info) ->
  filename info = VStr f ->
  plain_name f = true ->
  unobstructed_under (tree_at E (models_dir E)) = true ->
  present_under f (tree_at E (models_dir E)) = true ->
  exists lines,
    download_civitai_model E self model_id model_type token st =
    (Ok true,
     {| disk := disk st; trace := trace st ++ [lookup model_id token];
        out := out st ++ lines |}).
Proof.
  intros Hid Hres Hname Hplain Hopen Hpresent.
  apply (download_skipped E self model_id model_type token st Hid info Hres).
  - rewrite Hname. cbn [Val.truthy].
    unfold plain_name, Glob.one_component in Hplain.
    repeat (apply andb_true_iff in Hplain as [Hplain ?]). exact Hplain.
  - rewrite Hname.
    rewrite (proj2 (file_exists_plain E (models_dir E) f Hplain) Hopen).
    exact Hpresent.
Qed.

(** C2, at a name with a bracket in it.  checkpoints/v[1].safetensors is a
    regular file under the models directory, yet the existence check
    answers [false] for the name v[1].safetensors and the transfer tool is
    started for it. *)
Theorem present_file_fetched_again :
  present_under "v[1].safetensors" (tree_at Sample.bracket (models_dir Sample.bracket))
  = true
  /\ _file_exists_in_models Sample.bracket (models_dir Sample.bracket)
       (VStr "v[1].safetensors") = false
  /\ exists st',
       download_civitai_model Sample.bracket Sample.dl "7" "LoRA" None st0
       = (Ok true, st')
       /\ spawns "aria2c" (trace st') =
          [Spawn ["aria2c"; "-x"; "8"; "-s"; "8"; "--continue=true";
                  "--console-log-level=warn"; "--summary-interval=0";
                  "--dir=/workspace/downloads_tmp";
                  "--out=v[1].safetensors";
                  "https://civitai.com/api/download/models/7?type=Model&format=SafeTensor"]].
Proof.
  split; [reflexivity|]. split; [reflexivity|].
  exists (snd (download_civitai_model Sample.bracket Sample.dl "7" "LoRA" None
                 st0)).
  split; vm_compute; reflexivity.
Qed.

(** C9, at names with wildcard characters.  The check reads the name as a
    glob pattern: v[1].safetensors is present and not found (the pattern
    matches v1.safetensors only), while "*" names no file and is found. *)
Theorem wildcard_names_misjudged :
  (present_under "v[1].safetensors" Sample.bracket_models = true
   /\ _file_exists_in_models Sample.bracket "/workspace/models"
        (VStr "v[1].safetensors") = false)
  /\ (present_under "*" Sample.bracket_models = false
      /\ _file_exists_in_models Sample.bracket "/workspace/models" (VStr "*")
         = true)
  /\ Glob.fnmatch "v[1].safetensors" "v1.safetensors" = true.
Proof. repeat split. Qed.

(** The part of C3 that holds: a failed request, a status other than 200,
    an undecodable body, or an object whose "files" entry is missing or
    falsy (null, the empty list) resolve to [None]. *)
Lemma soft_failures_resolve_none (E : Env) (self : PhoenixDownloader)
    (model_id : string) (token : option string) :
  session_get E (api_url model_id) (auth_headers token) = RequestFailed
  \/ (exists code body,
        session_get E (api_url model_id) (auth_headers token)
        = Response code body
        /\ (code <> 200%Z
            \/ body = None
            \/ exists d,
                 body = Some (VDict d)
                 /\ (Val.assoc "files" d = None
                     \/ exists v, Val.assoc "files" d = Some v
                                  /\ Val.truthy v = false))) ->
  resolution E self model_id token = Ok None.
Proof.
  rewrite resolution_answer. unfold answer.
  intros [->|(code & body & -> & Hcase)]; [reflexivity|].
  destruct (Z.leb 400 code && Z.ltb code 600); [reflexivity|].
  destruct (Z.eqb code 200) eqn:Hcode; [|reflexivity].
  destruct Hcase as [Hne|[->|(d & -> & Hfiles)]].
  - apply Z.eqb_eq in Hcode. contradiction.
  - reflexivity.
  - unfold first_file, rbind, Val.contains, Val.getitem.
    destruct Hfiles as [->|(v & -> & Hv)]; [reflexivity|].
    rewrite Hv. reflexivity.
Qed.

(** C3, at bodies that lack a files list in another way: an object in
    place of the list, a number in its place, and the body [null].  The
    resolver raises, and so does the step for the identifier. *)
Theorem unexpected_body_raises :
  resolution (Sample.answering Sample.files_object) Sample.dl "1" None
  = Raise KeyError
  /\ resolution (Sample.answering Sample.files_number) Sample.dl "1" None
     = Raise TypeError
  /\ resolution (Sample.answering VNone) Sample.dl "1" None = Raise TypeError
  /\ fst (download_civitai_model (Sample.answering Sample.files_object)
            Sample.dl "1" "LoRA" None st0) = Raise KeyError.
Proof. repeat split. Qed.

(** C5, refuted: for a body whose first file has no name the resolver
    returns an artifact whose filename is [None]. *)
Lemma nameless_artifact_returned :
  resolution Sample.nameless Sample.dl "1" None = Ok (Some Sample.info_nameless)
  /\ ~ resolves_named (resolution Sample.nameless Sample.dl "1" None).
Proof.
  split; [reflexivity|].
  intros [H|(info & f & H & Hname & _)].
  - discriminate H.
  - change (resolution Sample.nameless Sample.dl "1" None)
      with (Ok (Some Sample.info_nameless)) in H.
    inversion H. subst info. discriminate Hname.
Qed.

(** C5, amended.  When the resolver returns an artifact whose filename is
    empty or missing, [download_civitai_model] reports the artifact failed
    and starts no tool: only the metadata request is added to the trace. *)
Theorem unnamed_artifact_rejected (E : Env) (self : PhoenixDownloader)
    (model_id model_type : string) (token : option string) (st : state)
    (info : model_info) :
  Py.truthy_str model_id = true ->
  resolution E self model_id token = Ok (Some info) ->
  Val.truthy (filename info) = false ->
  exists st',
    download_civitai_model E self model_id model_type token st = (Ok false, st')
    /\ disk st' = disk st
    /\ trace st' = trace st ++ [lookup model_id token].
Proof.
  intros Hid Hres Hname.
  destruct (download_unnamed E self model_id model_type token st Hid info Hres
              Hname) as [lines ->].
  eexists. repeat split.
Qed.

Lemma unnamed_artifact_rejected_witness :
  exists st',
    download_civitai_model Sample.nameless Sample.dl "1" "LoRA" None st0
    = (Ok false, st')
    /\ trace st' = [lookup "1" None].
Proof.
  destruct (unnamed_artifact_rejected Sample.nameless Sample.dl "1" "LoRA" None
              st0 Sample.info_nameless) as (st' & Hrun & _ & Htrace);
    try reflexivity.
  exists st'. split; [exact Hrun|exact Htrace].
Defined.

Lemma scenario_conforming : conforming Sample.scenario.
Proof.
  intros url headers. cbn. unfold Sample.http_111.
  destruct (String.eqb url (api_url "111")); reflexivity.
Qed.

(** C6, refuted: on the list "111,222" [process_civitai_downloads]
    returns [True] when 111 is accepted (tally 1 and 1) and returns
    [True] when 111 fails verification (tally 0 and 2); the value
    returned is not the tally, under any reading of it. *)
Lemma tally_not_returned :
  (exists st1 st2,
     process_civitai_downloads Sample.scenario Sample.dl "111,222" "Checkpoint"
       None st0 = (Ok true, st1)
     /\ tally Sample.scenario Sample.dl "111,222" "Checkpoint" None st0
        = Some (1, 1)
     /\ process_civitai_downloads Sample.corrupted Sample.dl "111,222"
          "Checkpoint" None st0 = (Ok true, st2)
     /\ tally Sample.corrupted Sample.dl "111,222" "Checkpoint" None st0
        = Some (0, 2))
  /\ ~ returns_the_tally.
Proof.
  assert (R : exists st1 st2,
             process_civitai_downloads Sample.scenario Sample.dl "111,222"
               "Checkpoint" None st0 = (Ok true, st1)
             /\ tally Sample.scenario Sample.dl "111,222" "Checkpoint" None st0
                = Some (1, 1)
             /\ process_civitai_downloads Sample.corrupted Sample.dl "111,222"
                  "Checkpoint" None st0 = (Ok true, st2)
             /\ tally Sample.corrupted Sample.dl "111,222" "Checkpoint" None
                  st0 = Some (0, 2)).
  { exists (snd (process_civitai_downloads Sample.scenario Sample.dl "111,222"
                   "Checkpoint" None st0)),
           (snd (process_civitai_downloads Sample.corrupted Sample.dl "111,222"
                   "Checkpoint" None st0)).
    split; [|split; [|split]]; vm_compute; reflexivity. }
  split; [exact R|].
  intros [as_pair H].
  destruct R as (st1 & st2 & Hrun1 & Htally1 & Hrun2 & Htally2).
  apply H in Hrun1. apply H in Hrun2.
  rewrite Htally1 in Hrun1. rewrite Htally2 in Hrun2.
  rewrite <- Hrun2 in Hrun1. discriminate Hrun1.
Qed.

(** The run of the scenario of C6: 111 resolves to a named artifact with a
    hash, is not yet present, is transferred and passes verification, and
    222 resolves to nothing. *)
Lemma scenario_run (E : Env) (self : PhoenixDownloader)
    (token : option string) (st : state) (info : model_info) (f : string) :
  resolution E self "111" token = Ok (Some info) ->
  filename info = VStr f ->
  Py.truthy_str f = true ->
  Py.truthy_str (hash info) = true ->
  _file_exists_in_models E (models_dir E) (VStr f) = false ->
  returncode (fetched E self info f token st) = 0%Z ->
  verdict (summed E self info f token st) (hash info) = true ->
  resolution E self "222" token = Ok None ->
  exists st',
    process_civitai_downloads E self "111,222" "Checkpoint" token st
    = (Ok true, st')
    /\ trace st' =
       trace st ++ [lookup "111" token;
                    Spawn (transfer_cmd E self info f token);
                    Spawn (checksum_cmd self f);
                    lookup "222" token]
    /\ last (out st') = Some (line (summary_line "Checkpoint" 1 1)).
Proof.
  intros Hres Hname Hf Hhash Habsent Hrc Hpass Hnone.
  unfold process_civitai_downloads.
  change (Py.truthy_str "111,222") with true. cbn [negb]. cbv iota.
  rewrite !bind_log.
  change (stripped_entries "111,222") with ["111"; "222"].
  cbn [tally_loop]. unfold bind at 1. unfold bind at 1.
  match goal with
  | |- context [download_civitai_model E self "111" "Checkpoint" token ?s] =>
      destruct (download_verified E self "111" "Checkpoint" token s eq_refl
                  info Hres f Hname Hf Habsent Hrc Hhash) as [l1 ->]
  end.
  change (verdict _ (hash info))
    with (verdict (summed E self info f token st) (hash info)).
  rewrite Hpass. unfold bind at 1.
  match goal with
  | |- context [download_civitai_model E self "222" "Checkpoint" token ?s] =>
      destruct (download_no_metadata E self "222" "Checkpoint" token s eq_refl
                  Hnone) as [l2 ->]
  end.
  rewrite bind_log. cbn [tally_loop]. unfold ret at 1.
  rewrite bind_log. unfold ret.
  eexists. split; [reflexivity|]. cbn [trace out printed fst snd].
  split.
  - rewrite <- !app_assoc. reflexivity.
  - rewrite log_lines_plain. apply last_snoc.
Qed.

(** A batch over an empty list prints one line and returns [True]. *)
Lemma process_nothing (E : Env) (self : PhoenixDownloader)
    (download_list model_type : string) (token : option string) (st : state) :
  Py.truthy_str download_list = false ->
  process_civitai_downloads E self download_list model_type token st
  = (Ok true,
     printed st
       [line ("No Civitai " +:+ model_type +:+ "s specified to download.")]).
Proof.
  intros Hlist. unfold process_civitai_downloads. rewrite Hlist.
  cbn [negb]. cbv iota. rewrite bind_log. reflexivity.
Qed.

(** C6, amended.  [process_civitai_downloads] returns [True], not a pair
    of counters.  Given an empty list it prints the one line "No Civitai
    ...s specified to download." and does nothing else.  Given any other
    list it counts successes and failures over the identifiers and its
    last action is to print the two counters in the closing line.  It
    does return whenever the bodies received have the expected shape.
    For the list "111,222", when 111 resolves to a named artifact with a
    hash, is not yet present, is transferred and passes verification, and
    222 resolves to nothing: the metadata of 111 is requested, the
    transfer and the checksum tool run once each, for 111, then the
    metadata of 222 is requested, and the closing line reads
    1 successful, 1 failed. *)
Theorem tally_printed_true_returned (E : Env) (self : PhoenixDownloader)
    (token : option string) (st : state) :
  (forall download_list model_type b st',
     process_civitai_downloads E self download_list model_type token st
     = (Ok b, st') ->
     b = true
     /\ if Py.truthy_str download_list
        then exists s f st2,
               tally_loop E self (stripped_entries download_list) model_type
                 token 0 0 (loop_start self download_list model_type st)
               = (Ok (s, f), st2)
               /\ st' = printed st2 [line (summary_line model_type s f)]
        else st' =
             printed st
               [line ("No Civitai " +:+ model_type
                      +:+ "s specified to download.")])
  /\ (conforming E ->
      forall download_list model_type,
      exists st',
        process_civitai_downloads E self download_list model_type token st
        = (Ok true, st'))
  /\ (forall info f,
        resolution E self "111" token = Ok (Some info) ->
        filename info = VStr f ->
        Py.truthy_str f = true ->
        Py.truthy_str (hash info) = true ->
        _file_exists_in_models E (models_dir E) (VStr f) = false ->
        returncode (fetched E self info f token st) = 0%Z ->
        verdict (summed E self info f token st) (hash info) = true ->
        resolution E self "222" token = Ok None ->
        exists st',
          process_civitai_downloads E self "111,222" "Checkpoint" token st
          = (Ok true, st')
          /\ trace st' =
             trace st ++ [lookup "111" token;
                          Spawn (transfer_cmd E self info f token);
                          Spawn (checksum_cmd self f);
                          lookup "222" token]
          /\ last (out st') = Some (line (summary_line "Checkpoint" 1 1))).
Proof.
  split; [|split].
  - intros download_list model_type b st' Hrun.
    destruct (Py.truthy_str download_list) eqn:Hlist.
    + destruct (process_ends E self download_list model_type token st b st'
                  Hlist Hrun) as (Hb & s & f & st2 & Hloop & Hst & _).
      split; [exact Hb|]. exists s, f, st2. split; [exact Hloop|exact Hst].
    + rewrite (process_nothing E self download_list model_type token st Hlist)
        in Hrun.
      inversion Hrun. split; reflexivity.
  - intros Hconf download_list model_type. apply process_total. exact Hconf.
  - intros info f. apply scenario_run.
Qed.

Lemma tally_printed_true_returned_witness :
  (exists st',
     process_civitai_downloads Sample.scenario Sample.dl "111,222" "Checkpoint"
       None st0
     = (Ok true, st')
     /\ spawns "aria2c" (trace st') =
        [Spawn (transfer_cmd Sample.scenario Sample.dl Sample.info_111
                  "a.safetensors" None)]
     /\ last (out st') =
        Some "  [DOWNLOAD] Civitai Checkpoints complete: 1 successful, 1 failed")
  /\ process_civitai_downloads Sample.scenario Sample.dl "" "LoRA" None st0
     = (Ok true,
        {| disk := ∅; trace := [];
           out := ["  [DOWNLOAD] No Civitai LoRAs specified to download."] |}).
Proof.
  destruct (tally_printed_true_returned Sample.scenario Sample.dl None st0)
    as (Hshape & Hends & Hscenario).
  split.
  - destruct (Hscenario Sample.info_111 "a.safetensors")
      as (st' & Hrun & Htrace & Hlast); try (vm_compute; reflexivity).
    exists st'. split; [exact Hrun|]. split.
    + rewrite Htrace. vm_compute. reflexivity.
    + rewrite Hlast. vm_compute. reflexivity.
  - destruct (Hends scenario_conforming "" "LoRA") as [st' Hrun].
    destruct (Hshape "" "LoRA" true st' Hrun) as [_ Hst].
    rewrite Hrun. cbn [Py.truthy_str] in Hst. rewrite Hst.
    vm_compute. reflexivity.
Defined.


(** C7, at a body outside the expected shape.  With the list "111,222" and
    a first file whose "hashes" entry is null, the batch ends with an
    [AttributeError] after the metadata request for 111: nothing is
    returned and 222 is never looked at. *)
Theorem malformed_body_aborts_batch :
  exists st',
    process_civitai_downloads (Sample.answering Sample.null_hashes) Sample.dl
      "111,222" "Checkpoint" None st0
    = (Raise AttributeError, st')
    /\ trace st' = [lookup "111" None].
Proof.
  exists (snd (process_civitai_downloads (Sample.answering Sample.null_hashes)
                 Sample.dl "111,222" "Checkpoint" None st0)).
  split; vm_compute; reflexivity.
Qed.

(** The part of C7 that holds: with bodies of the expected shape, whatever
    the requests, the tools and the digests do, both batch operations end
    and return [True]. *)
Lemma batches_return_true (E : Env) (self : PhoenixDownloader)
    (lst model_type : string) (token : option string) (st : state) :
  (exists st', download_hf_repos E self lst token st = (Ok true, st'))
  /\ (conforming E ->
      exists st',
        process_civitai_downloads E self lst model_type token st
        = (Ok true, st')).
Proof.
  split; [apply download_hf_repos_total|].
  intros Hconf. apply process_total. exact Hconf.
Qed.



(** ** The sample environments at work *)

(** A file two levels below the models directory is found and the
    identifier is reported successful with nothing started. *)
Example stocked_artifact_skipped :
  exists lines,
    download_civitai_model Sample.stocked Sample.dl "111" "Checkpoint" None st0
    = (Ok true,
       {| disk := ∅; trace := [lookup "111" None]; out := lines |}).
Proof.
  destruct (present_plain_skips Sample.stocked Sample.dl "111" "Checkpoint"
              None st0 Sample.info_111 "a.safetensors")
    as [lines Hrun]; try reflexivity.
  exists lines. exact Hrun.
Qed.

(** With no request getting through, every identifier of the list fails
    and the batch still returns [True]. *)
Example offline_batch :
  exists st',
    process_civitai_downloads Sample.offline Sample.dl "111,222" "LoRA" None st0
    = (Ok true, st')
    /\ trace st' = [lookup "111" None; lookup "222" None]
    /\ last (out st') = Some (line (summary_line "LoRA" 0 2)).
Proof.
  exists (snd (process_civitai_downloads Sample.offline Sample.dl "111,222"
                 "LoRA" None st0)).
  split; [|split]; vm_compute; reflexivity.
Qed.

(** What the permissions of the models directory do to the check.  A
    missing directory and one that cannot be searched hide the file; one
    that can be searched and not listed shows it to the plain name, which
    is looked up and not listed, and hides it from a pattern. *)
Example closed_roots :
  let check root name :=
    _file_exists_in_models
      (Sample.env Sample.http_111 (Sample.tools "abc123") root)
      "/workspace/models" (VStr name) in
  check None "a.safetensors" = false
  /\ check (Some (Dir true false [("a.safetensors", File)])) "a.safetensors"
     = false
  /\ check (Some (Dir true false [("a.safetensors", File)])) "*" = false
  /\ check (Some (Dir false true [("a.safetensors", File)])) "a.safetensors"
     = true
  /\ check (Some (Dir false true [("a.safetensors", File)])) "*" = false.
Proof. repeat split. Qed.

(** * Further properties *)

(** ** Actions that only append *)

Lemma appends_weaken {A : Type} (Qe Qe' : event -> Prop)
    (Ql Ql' : string -> Prop) (m : M A) :
  (forall e, Qe e -> Qe' e) -> (forall l, Ql l -> Ql' l) ->
  appends Qe Ql m -> appends Qe' Ql' m.
Proof.
  intros He Hl Hm st. destruct (Hm st) as (evs & lines & Ht & Ho & Fe & Fl).
  exists evs, lines. repeat split; try assumption.
  - eapply List.Forall_impl; [exact He|exact Fe].
  - eapply List.Forall_impl; [exact Hl|exact Fl].
Qed.

Lemma appends_nothing {A : Type} (Qe : event -> Prop) (Ql : string -> Prop)
    (m : M A) :
  (forall st, snd (m st) = st) -> appends Qe Ql m.
Proof.
  intros H st. exists [], []. rewrite H, !app_nil_r. repeat split; constructor.
Qed.

Lemma appends_ret {A : Type} Qe Ql (a : A) : appends Qe Ql (ret a).
Proof. apply appends_nothing. reflexivity. Qed.

Lemma appends_raise {A : Type} Qe Ql (e : exn) : appends Qe Ql (@raise A e).
Proof. apply appends_nothing. reflexivity. Qed.

Lemma appends_lift {A : Type} Qe Ql (r : res A) : appends Qe Ql (lift r).
Proof. apply appends_nothing. reflexivity. Qed.

Lemma appends_bind {A B : Type} Qe Ql (m : M A) (k : A -> M B) :
  appends Qe Ql m -> (forall a, appends Qe Ql (k a)) ->
  appends Qe Ql (bind m k).
Proof.
  intros Hm Hk st. destruct (Hm st) as (e1 & l1 & Ht & Ho & Fe & Fl).
  unfold bind. destruct (m st) as [[a|e] st1]; cbn [snd] in *.
  - destruct (Hk a st1) as (e2 & l2 & Ht2 & Ho2 & Fe2 & Fl2).
    exists (e1 ++ e2), (l1 ++ l2).
    rewrite Ht2, Ho2, Ht, Ho, <- !app_assoc.
    repeat split; try reflexivity; apply List.Forall_app; split; assumption.
  - exists e1, l1. repeat split; assumption.
Qed.

Lemma appends_try {A : Type} Qe Ql (body handler : M A)
    (catches : exn -> bool) :
  appends Qe Ql body -> appends Qe Ql handler ->
  appends Qe Ql (try_except body catches handler).
Proof.
  intros Hb Hh st. destruct (Hb st) as (e1 & l1 & Ht & Ho & Fe & Fl).
  unfold try_except. destruct (body st) as [[a|e] st1]; cbn [snd] in *.
  - exists e1, l1. repeat split; assumption.
  - destruct (catches e); cbn [snd].
    + destruct (Hh st1) as (e2 & l2 & Ht2 & Ho2 & Fe2 & Fl2).
      exists (e1 ++ e2), (l1 ++ l2).
      rewrite Ht2, Ho2, Ht, Ho, <- !app_assoc.
      repeat split; try reflexivity; apply List.Forall_app; split; assumption.
    + exists e1, l1. repeat split; assumption.
Qed.

Lemma appends_log Qe (Ql : string -> Prop) (self : PhoenixDownloader)
    (m : string) (d : bool) :
  Forall Ql (log_lines self m d) -> appends Qe Ql (log self m d).
Proof.
  intros H st. rewrite log_printed. exists [], (log_lines self m d).
  cbn [snd printed trace out]. rewrite app_nil_r.
  repeat split; [constructor|exact H].
Qed.

Lemma appends_run (Qe : event -> Prop) Ql (E : Env) (cmd : list string)
    (check : bool) :
  Qe (Spawn cmd) -> appends Qe Ql (run E cmd check).
Proof.
  intros H st. rewrite run_eq. exists [Spawn cmd], [].
  cbn [snd trace out]. rewrite app_nil_r.
  repeat split; [constructor; [exact H|constructor]|constructor].
Qed.

Lemma appends_unlink (Qe : event -> Prop) Ql (path : string) :
  Qe (Unlink path) -> appends Qe Ql (unlink_missing_ok path).
Proof.
  intros H st. exists [Unlink path], []. unfold unlink_missing_ok.
  cbn [snd trace out]. rewrite app_nil_r.
  repeat split; [constructor; [exact H|constructor]|constructor].
Qed.

Lemma appends_get (Qe : event -> Prop) Ql (E : Env) (url : string)
    (headers : list (string * string)) :
  Qe (HttpGet url headers) ->
  appends Qe Ql (get_and_raise_for_status E url headers).
Proof.
  intros H st. exists [HttpGet url headers], [].
  unfold get_and_raise_for_status.
  destruct (session_get E url headers) as [|code body];
    [|destruct (Z.leb 400 code && Z.ltb code 600)];
    cbn [snd trace out]; rewrite app_nil_r;
    repeat split; try (constructor; [exact H|constructor]); constructor.
Qed.

(** Walks through an action built from the pieces above; what is left are
    the conditions on the events and lines it meets. *)
Ltac walk :=
  repeat first
    [ apply appends_ret
    | apply appends_raise
    | apply appends_lift
    | apply appends_bind; [|intros ?; cbv beta]
    | apply appends_try
    | apply appends_log
    | apply appends_run
    | apply appends_unlink
    | apply appends_get
    | match goal with
      | |- appends _ _ (if ?b then _ else _) => destruct b eqn:?
      | |- appends _ _ (match ?x with _ => _ end) => destruct x eqn:?
      | |- appends _ _ (let _ := _ in _) => cbv zeta
      | |- appends _ _ (json _) => unfold json
      | |- appends _ _ (staged _ _) => unfold staged
      end ].

Section Appending.

Variable E : Env.
Variable self : PhoenixDownloader.
Variable Qe : event -> Prop.
Variable Ql : string -> Prop.

Hypothesis lines_ok : forall m d, Forall Ql (log_lines self m d).

Lemma verify_appends (path expected : string) :
  Qe (Spawn ["sha256sum"; path]) ->
  appends Qe Ql (_verify_checksum E path expected).
Proof. intros H. unfold _verify_checksum. walk; auto. Qed.

Lemma resolver_appends (model_id : string) (token : option string) :
  Qe (lookup model_id token) ->
  appends Qe Ql (get_civitai_model_info E self model_id token).
Proof.
  intros H. unfold get_civitai_model_info, json. walk; auto.
Qed.

Hypothesis transfers_ok : forall v url, Qe (Spawn (aria2c_cmd E self v url)).
Hypothesis checksums_ok : forall path, Qe (Spawn ["sha256sum"; path]).
Hypothesis unlinks_ok : forall path, Qe (Unlink path).

Lemma download_appends (model_id model_type : string)
    (token : option string) :
  Qe (lookup model_id token) ->
  appends Qe Ql (download_civitai_model E self model_id model_type token).
Proof.
  intros H. unfold download_civitai_model, staged.
  walk; auto using resolver_appends, verify_appends.
Qed.

Variable token : option string.
Hypothesis lookups_ok : forall model_id, Qe (lookup model_id token).

Lemma tally_appends (model_type : string) (ids : list string) :
  forall successful failed,
    appends Qe Ql (tally_loop E self ids model_type token successful failed).
Proof.
  induction ids as [|model_id rest IH]; intros successful failed;
    cbn [tally_loop]; walk; auto using download_appends.
Qed.

Lemma process_appends (download_list model_type : string) :
  appends Qe Ql
    (process_civitai_downloads E self download_list model_type token).
Proof.
  unfold process_civitai_downloads. walk; auto using tally_appends.
Qed.

End Appending.

Section AppendingRepos.

Variable E : Env.
Variable self : PhoenixDownloader.
Variable Qe : event -> Prop.
Variable Ql : string -> Prop.

Hypothesis lines_ok : forall m d, Forall Ql (log_lines self m d).
Hypothesis clones_ok : forall repo_id token, Qe (Spawn (hf_cmd self repo_id token)).
Hypothesis sizes_ok :
  debug_mode self = true -> forall path, Qe (Spawn ["du"; "-sh"; path]).

Lemma hf_repo_appends (repo_id : string) (token : option string) :
  appends Qe Ql (download_hf_repo E self repo_id token).
Proof.
  unfold download_hf_repo. walk; auto; apply (clones_ok repo_id token).
Qed.

Lemma hf_repos_appends (repos_list : string) (token : option string) :
  appends Qe Ql (download_hf_repos E self repos_list token).
Proof.
  assert (Hloop : forall repos, appends Qe Ql (hf_loop E self repos token)).
  { induction repos as [|repo_id rest IH]; cbn [hf_loop].
    - apply appends_ret.
    - apply appends_bind; [apply hf_repo_appends|intros _; exact IH]. }
  unfold download_hf_repos.
  destruct (negb (Py.truthy_str repos_list)).
  - apply appends_bind; [apply appends_log, lines_ok|intros _; apply appends_ret].
  - apply appends_bind; [apply appends_log, lines_ok|intros _].
    apply appends_bind; [apply Hloop|intros _; apply appends_ret].
Qed.

End AppendingRepos.

Lemma is_prefix_append (p s : string) : Py.is_prefix p (p +:+ s) = true.
Proof.
  induction p as [|c p IH]; [reflexivity|].
  change (String c p +:+ s) with (String c (p +:+ s)).
  cbn [Py.is_prefix]. rewrite Ascii.eqb_refl. exact IH.
Qed.

Lemma log_lines_terse (self : PhoenixDownloader) (m : string) (d : bool) :
  debug_mode self = false -> Forall terse (log_lines self m d).
Proof.
  intros Hoff. unfold log_lines. rewrite Hoff.
  destruct d; cbn [andb negb]; constructor; [reflexivity|constructor].
Qed.

Lemma log_lines_any (self : PhoenixDownloader) (m : string) (d : bool) :
  Forall (fun _ => True) (log_lines self m d).
Proof. apply List.Forall_forall. intros; exact I. Qed.

Lemma lookup_civitai (model_id : string) (token : option string) :
  civitai_event token (lookup model_id token).
Proof. split; [apply is_prefix_append|reflexivity]. Qed.

Lemma transfer_civitai (E : Env) (self : PhoenixDownloader)
    (token : option string) (v : value) (url : string) :
  civitai_event token (Spawn (aria2c_cmd E self v url)).
Proof. left. reflexivity. Qed.

Lemma clone_hf (self : PhoenixDownloader) (repo_id : string)
    (token : option string) :
  hf_event self (Spawn (hf_cmd self repo_id token)).
Proof. unfold hf_cmd. destruct (truthy_token token); left; reflexivity. Qed.

(** ** The repository batch *)

Lemma download_hf_repo_attempt (E : Env) (self : PhoenixDownloader)
    (repo_id : string) (token : option string) (st : state) :
  exists st',
    download_hf_repo E self repo_id token st = (Ok tt, st')
    /\ spawns "huggingface-cli" (trace st') =
       spawns "huggingface-cli" (trace st) ++ [Spawn (hf_cmd self repo_id token)].
Proof.
  unfold download_hf_repo, hf_cmd. rewrite bind_log.
  destruct (truthy_token token); rewrite bind_log;
    unfold try_except, bind;
    destruct (debug_mode self); rewrite ?log_printed; unfold ret at 1;
    rewrite run_eq; cbn [andb];
    match goal with
    | |- context [negb (Z.eqb ?x 0)] => destruct (Z.eqb x 0)
    end; cbn [negb]; cbv iota; cbn [is_CalledProcessError];
    rewrite ?log_printed; cbv iota beta;
    rewrite ?log_printed; cbv iota beta; rewrite ?log_printed;
    cbv iota beta; rewrite ?log_printed;
    try (eexists; split; [reflexivity|];
         cbn [trace printed]; unfold spawns; rewrite !List.filter_app;
         cbn; rewrite ?app_nil_r; reflexivity).
  all: rewrite run_eq; cbn [andb]; cbv iota;
    match goal with
    | |- context [Z.eqb (returncode ?x) 0] =>
        destruct (Z.eqb (returncode x) 0)
    end;
    try (eexists; split; [reflexivity|];
         cbn [trace printed]; unfold spawns; rewrite !List.filter_app;
         cbn; rewrite ?app_nil_r; reflexivity);
    match goal with
    | |- context [Py.split_ws ?x] => destruct (Py.split_ws x)
    end;
    unfold raise; cbn [any_exception]; rewrite ?log_printed;
    eexists; (split; [reflexivity|]);
    cbn [trace printed]; unfold spawns; rewrite !List.filter_app;
    cbn; rewrite ?app_nil_r; reflexivity.
Qed.

Lemma hf_loop_attempts (E : Env) (self : PhoenixDownloader)
    (token : option string) (repos : list string) :
  forall st, exists st',
    hf_loop E self repos token st = (Ok tt, st')
    /\ spawns "huggingface-cli" (trace st') =
       spawns "huggingface-cli" (trace st)
       ++ List.map (fun repo_id => Spawn (hf_cmd self repo_id token)) repos.
Proof.
  induction repos as [|repo_id rest IH]; intros st.
  - exists st. split; [reflexivity|]. cbn [List.map]. rewrite app_nil_r.
    reflexivity.
  - cbn [hf_loop]. unfold bind at 1.
    destruct (download_hf_repo_attempt E self repo_id token st)
      as (st1 & -> & H1).
    destruct (IH st1) as (st2 & -> & H2).
    exists st2. split; [reflexivity|].
    rewrite H2, H1, <- app_assoc. reflexivity.
Qed.

(** X7. Whatever the repository tool answers, [download_hf_repos] returns
    [True] and has started the tool once for every non-blank entry of the
    list, in the order of the list: a repository that fails does not stop
    the ones after it. *)
Theorem every_repository_attempted (E : Env) (self : PhoenixDownloader)
    (repos_list : string) (token : option string) (st : state) :
  exists st',
    download_hf_repos E self repos_list token st = (Ok true, st')
    /\ spawns "huggingface-cli" (trace st') =
       spawns "huggingface-cli" (trace st)
       ++ List.map (fun repo_id => Spawn (hf_cmd self repo_id token))
            (stripped_entries repos_list).
Proof.
  unfold download_hf_repos.
  destruct (Py.truthy_str repos_list) eqn:Hlist; cbn [negb]; cbv iota;
    rewrite bind_log.
  - unfold bind at 1.
    match goal with
    | |- context [hf_loop ?E ?s ?r ?t ?st] =>
        destruct (hf_loop_attempts E s t r st) as (st1 & -> & H1)
    end.
    exists st1. split; [reflexivity|exact H1].
  - apply truthy_str_false in Hlist. subst repos_list.
    eexists. split; [reflexivity|]. cbn. rewrite app_nil_r. reflexivity.
Qed.

(** X8. [download_hf_repos] makes no HTTP request and unlinks nothing; the only
    programs it starts are [huggingface-cli] and, in debug mode, [du]. *)
Theorem repository_batch_events (E : Env) (self : PhoenixDownloader)
    (repos_list : string) (token : option string) (st : state) :
  exists evs,
    trace (snd (download_hf_repos E self repos_list token st)) = trace st ++ evs
    /\ Forall (hf_event self) evs.
Proof.
  destruct (hf_repos_appends E self (hf_event self) (fun _ => True)
              (log_lines_any self) (clone_hf self)
              (fun Hdbg path => or_intror (conj eq_refl Hdbg))
              repos_list token st) as (evs & lines & Ht & _ & Fe & _).
  exists evs. split; assumption.
Qed.

(** ** Events and lines of a model batch *)

(** X6. [process_civitai_downloads] asks nothing but the model-versions
    endpoint, always with the headers of its token (none without a token),
    and starts no program other than [aria2c] and [sha256sum], whatever
    the outcome, an exception included. *)
Theorem model_batch_events (E : Env) (self : PhoenixDownloader)
    (download_list model_type : string) (token : option string) (st : state) :
  exists evs,
    trace (snd (process_civitai_downloads E self download_list model_type
                  token st)) = trace st ++ evs
    /\ Forall (civitai_event token) evs.
Proof.
  destruct (process_appends E self (civitai_event token) (fun _ => True)
              (log_lines_any self) (transfer_civitai E self token)
              (fun path => or_intror eq_refl) (fun path => I) token
              (fun model_id => lookup_civitai model_id token)
              download_list model_type st)
    as (evs & lines & Ht & _ & Fe & _).
  exists evs. split; assumption.
Qed.

(** X9. With debug mode off, every line the two batches print is a plain
    [[DOWNLOAD]] line: no debug line gets out, whatever happens. *)
Theorem no_debug_lines_when_off (E : Env) (self : PhoenixDownloader)
    (lst model_type : string) (token : option string) (st : state) :
  debug_mode self = false ->
  (exists lines,
     out (snd (download_hf_repos E self lst token st)) = out st ++ lines
     /\ Forall terse lines)
  /\ (exists lines,
        out (snd (process_civitai_downloads E self lst model_type token st))
        = out st ++ lines
        /\ Forall terse lines).
Proof.
  intros Hoff. split.
  - destruct (hf_repos_appends E self (fun _ => True) terse
                (fun m d => log_lines_terse self m d Hoff)
                (fun _ _ => I) (fun _ _ => I) lst token st)
      as (evs & lines & _ & Ho & _ & Fl).
    exists lines. split; assumption.
  - destruct (process_appends E self (fun _ => True) terse
                (fun m d => log_lines_terse self m d Hoff)
                (fun _ _ => I) (fun _ => I) (fun _ => I) token (fun _ => I)
                lst model_type st)
      as (evs & lines & _ & Ho & _ & Fl).
    exists lines. split; assumption.
Qed.

Lemma no_debug_lines_when_off_witness :
  exists lines,
    out (snd (process_civitai_downloads Sample.scenario Sample.dl "111,222"
                "Checkpoint" None st0)) = lines
    /\ Forall terse lines.
Proof.
  destruct (no_debug_lines_when_off Sample.scenario Sample.dl "111,222"
              "Checkpoint" None st0 eq_refl) as [_ (lines & Ho & Fl)].
  exists lines. split; [exact Ho|exact Fl].
Defined.

(** ** One request per identifier *)

Lemma filter_none {A : Type} (p : A -> bool) (l : list A) :
  Forall (fun x => p x = false) l -> List.filter p l = [].
Proof.
  induction 1 as [|x l Hx _ IH]; [reflexivity|].
  cbn [List.filter]. rewrite Hx. exact IH.
Qed.

Lemma local_requests {A : Type} (Ql : string -> Prop) (m : M A) :
  appends local_event Ql m ->
  forall st, requests (trace (snd (m st))) = requests (trace st).
Proof.
  intros Hm st. destruct (Hm st) as (evs & lines & Ht & _ & Fe & _).
  rewrite Ht. unfold requests. rewrite List.filter_app, (filter_none _ _ Fe).
  apply app_nil_r.
Qed.

Lemma bind_requests {A B : Type} (Ql : string -> Prop) (m : M A)
    (k : A -> M B) (R : list event) :
  (forall st, requests (trace (snd (m st))) = requests (trace st) ++ R) ->
  (forall a, appends local_event Ql (k a)) ->
  forall st, requests (trace (snd (bind m k st))) = requests (trace st) ++ R.
Proof.
  intros Hm Hk st. specialize (Hm st). unfold bind.
  destruct (m st) as [[a|e] st1]; cbn [snd] in *; [|exact Hm].
  rewrite (local_requests Ql (k a) (Hk a) st1). exact Hm.
Qed.

Lemma resolver_requests (E : Env) (self : PhoenixDownloader)
    (model_id : string) (token : option string) (st : state) :
  requests (trace (snd (get_civitai_model_info E self model_id token st)))
  = requests (trace st) ++ [lookup model_id token].
Proof.
  destruct (get_civitai_model_info_run E self model_id token st) as [lines ->].
  cbn [snd trace]. unfold requests. rewrite List.filter_app. reflexivity.
Qed.

(** The step for one identifier makes exactly one request, the lookup of
    that identifier, on every path through it. *)
Lemma download_requests (E : Env) (self : PhoenixDownloader)
    (model_id model_type : string) (token : option string) (st : state) :
  Py.truthy_str model_id = true ->
  requests (trace (snd (download_civitai_model E self model_id model_type
                          token st)))
  = requests (trace st) ++ [lookup model_id token].
Proof.
  intros Hid. unfold download_civitai_model. rewrite Hid.
  cbn [negb]. cbv iota. rewrite bind_log.
  rewrite (bind_requests (fun _ => True) _ _ [lookup model_id token]).
  - reflexivity.
  - intros st1. apply resolver_requests.
  - intros model_info. cbv zeta.
    walk; try apply log_lines_any; reflexivity.
Qed.

Lemma tally_requests (E : Env) (self : PhoenixDownloader)
    (model_type : string) (token : option string) (ids : list string) :
  Forall (fun x => Py.truthy_str x = true) ids ->
  forall successful failed st counts st',
    tally_loop E self ids model_type token successful failed st
    = (Ok counts, st') ->
    requests (trace st') =
    requests (trace st) ++ List.map (fun id => lookup id token) ids.
Proof.
  induction 1 as [|model_id rest Hid _ IH];
    intros successful failed st counts st'.
  - cbn. unfold ret. intros H. inversion H. subst. rewrite app_nil_r.
    reflexivity.
  - cbn [tally_loop List.map]. unfold bind at 1.
    pose proof (download_requests E self model_id model_type token st Hid)
      as Hreq.
    destruct (download_civitai_model E self model_id model_type token st)
      as [[[|]|e] st1]; cbn [snd] in Hreq; [| |discriminate].
    + intros H. apply IH in H. rewrite H, Hreq, <- app_assoc. reflexivity.
    + rewrite bind_log. intros H. apply IH in H. cbn [printed trace] in H.
      rewrite H, Hreq, <- app_assoc. reflexivity.
Qed.

(** X5. A model batch that ends has made exactly one metadata request for each
    non-blank entry of its list, in the order of the list, whatever became
    of each artifact (skipped, transferred, failed). *)
Theorem one_request_per_identifier (E : Env) (self : PhoenixDownloader)
    (download_list model_type : string) (token : option string)
    (st : state) (b : bool) (st' : state) :
  process_civitai_downloads E self download_list model_type token st
  = (Ok b, st') ->
  requests (trace st') =
  requests (trace st)
  ++ List.map (fun id => lookup id token) (stripped_entries download_list).
Proof.
  unfold process_civitai_downloads.
  destruct (Py.truthy_str download_list) eqn:Hlist; cbn [negb]; cbv iota.
  - rewrite !bind_log. unfold bind at 1.
    match goal with
    | |- context [tally_loop ?E ?s ?ids ?ty ?tok ?a ?c ?s0] =>
        destruct (tally_loop E s ids ty tok a c s0) as [[counts|e] st1]
          eqn:Hloop
    end; [|discriminate].
    rewrite bind_log. unfold ret. intros H. inversion H. subst.
    apply tally_requests in Hloop; [|apply stripped_entries_truthy].
    exact Hloop.
  - apply truthy_str_false in Hlist. subst download_list.
    rewrite bind_log. unfold ret. intros H. inversion H. subst.
    cbn. rewrite app_nil_r. reflexivity.
Qed.

Lemma one_request_per_identifier_witness :
  exists st',
    process_civitai_downloads Sample.corrupted Sample.dl " 111 ,, 222" "LoRA"
      (Some "key") st0 = (Ok true, st')
    /\ requests (trace st') =
       [lookup "111" (Some "key"); lookup "222" (Some "key")].
Proof.
  exists (snd (process_civitai_downloads Sample.corrupted Sample.dl
                 " 111 ,, 222" "LoRA" (Some "key") st0)).
  assert (Hrun : process_civitai_downloads Sample.corrupted Sample.dl
                   " 111 ,, 222" "LoRA" (Some "key") st0
                 = (Ok true,
                    snd (process_civitai_downloads Sample.corrupted Sample.dl
                           " 111 ,, 222" "LoRA" (Some "key") st0)))
    by (vm_compute; reflexivity).
  split; [exact Hrun|].
  rewrite (one_request_per_identifier _ _ _ _ _ _ _ _ Hrun). reflexivity.
Defined.

(** ** More on identifier lists *)

Lemma split_on_cons (sep : ascii) (s : string) :
  exists h t, Py.split_on sep s = h :: t.
Proof.
  destruct s as [|c r]; cbn [Py.split_on]; [eauto|].
  destruct (Ascii.eqb c sep); [eauto|].
  destruct (Py.split_on sep r); eauto.
Qed.

Lemma split_on_app (sep : ascii) (a b : string) :
  Py.split_on sep (a +:+ String sep b) =
  Py.split_on sep a ++ Py.split_on sep b.
Proof.
  induction a as [|c r IH].
  - change (EmptyString +:+ String sep b) with (String sep b).
    cbn [Py.split_on]. rewrite Ascii.eqb_refl. reflexivity.
  - change (String c r +:+ String sep b) with (String c (r +:+ String sep b)).
    cbn [Py.split_on]. rewrite IH.
    destruct (Ascii.eqb c sep); [reflexivity|].
    destruct (split_on_cons sep r) as (h & t & ->). reflexivity.
Qed.

Lemma entries_of_joined (a b : string) :
  stripped_entries (a +:+ "," +:+ b) = stripped_entries a ++ stripped_entries b.
Proof.
  unfold stripped_entries.
  change ("," +:+ b) with (String "," b).
  rewrite split_on_app, List.filter_app, List.map_app. reflexivity.
Qed.

(** X1. The entries of two lists joined by a comma are the entries of the
    first followed by the entries of the second. *)
Theorem stripped_entries_app (a b : string) :
  stripped_entries (a +:+ "," +:+ b) = stripped_entries a ++ stripped_entries b.
Proof. apply entries_of_joined. Qed.

Lemma comma_free_cons (c : ascii) (s : string) :
  comma_free (String c s) = negb (Ascii.eqb "," c) && comma_free s.
Proof.
  unfold comma_free, Py.has_char. cbn [Py.chars existsb].
  apply negb_orb.
Qed.

Lemma split_on_comma_free (s : string) :
  Forall (fun e => comma_free e = true) (Py.split_on "," s).
Proof.
  induction s as [|c r IH]; cbn [Py.split_on].
  - constructor; [reflexivity|constructor].
  - destruct (Ascii.eqb c ",") eqn:Hc.
    + constructor; [reflexivity|exact IH].
    + destruct (split_on_cons "," r) as (h & t & Hsplit).
      rewrite Hsplit in *. inversion IH as [|? ? Hh Ht]. subst.
      constructor; [|exact Ht].
      rewrite comma_free_cons, Hh, Ascii.eqb_sym, Hc. reflexivity.
Qed.

Lemma comma_free_lstrip (s : string) :
  comma_free s = true -> comma_free (Py.lstrip s) = true.
Proof.
  induction s as [|c r IH]; [reflexivity|].
  cbn [Py.lstrip]. destruct (Py.is_space c); [|trivial].
  rewrite comma_free_cons. intros H. apply andb_true_iff in H as [_ H].
  apply IH, H.
Qed.

Lemma comma_free_rstrip (s : string) :
  comma_free s = true -> comma_free (Py.rstrip s) = true.
Proof.
  induction s as [|c r IH]; [reflexivity|].
  cbn [Py.rstrip]. rewrite comma_free_cons. intros H.
  apply andb_true_iff in H as [Hc H].
  destruct (Py.is_space c && negb (Py.truthy_str (Py.rstrip r)));
    [reflexivity|].
  rewrite comma_free_cons, Hc. apply IH, H.
Qed.

Lemma stripped_entries_comma_free (lst : string) :
  Forall (fun x => comma_free x = true) (stripped_entries lst).
Proof.
  unfold stripped_entries.
  pose proof (split_on_comma_free lst) as H.
  induction H as [|e l He _ IH]; cbn [List.filter List.map]; [constructor|].
  destruct (Py.truthy_str (Py.strip e)); [|exact IH].
  cbn [List.map]. constructor; [|exact IH].
  apply comma_free_rstrip, comma_free_lstrip, He.
Qed.

Lemma lstrip_fixed (s : string) :
  is_space_opt (first_char s) = false -> Py.lstrip s = s.
Proof.
  destruct s as [|c r]; [reflexivity|]. cbn. intros ->. reflexivity.
Qed.

Lemma rstrip_fixed (s : string) :
  is_space_opt (last_char s) = false -> Py.rstrip s = s.
Proof.
  induction s as [|c r IH]; [reflexivity|].
  cbn [last_char Py.rstrip].
  destruct (last_char r) as [d|] eqn:Hlast.
  - intros Hd. rewrite (IH Hd).
    destruct r as [|c' r']; [discriminate|].
    cbn [Py.truthy_str negb]. rewrite andb_false_r. reflexivity.
  - apply last_char_none in Hlast. subst r. cbn. intros ->. reflexivity.
Qed.

Lemma strip_fixed (s : string) : edge_space s = false -> Py.strip s = s.
Proof.
  unfold edge_space, Py.strip. intros H. apply orb_false_iff in H as [H1 H2].
  rewrite (lstrip_fixed s H1). apply rstrip_fixed, H2.
Qed.

Lemma split_on_single (s : string) :
  comma_free s = true -> Py.split_on "," s = [s].
Proof.
  induction s as [|c r IH]; [reflexivity|].
  rewrite comma_free_cons. intros H. apply andb_true_iff in H as [Hc H].
  cbn [Py.split_on]. rewrite Ascii.eqb_sym. apply negb_true_iff in Hc.
  rewrite Hc, (IH H). reflexivity.
Qed.

Lemma stripped_entries_single (x : string) :
  Py.truthy_str x = true -> edge_space x = false -> comma_free x = true ->
  stripped_entries x = [x].
Proof.
  intros Ht He Hc. unfold stripped_entries.
  rewrite (split_on_single x Hc). cbn [List.filter].
  rewrite (strip_fixed x He), Ht. cbn [List.map].
  rewrite (strip_fixed x He). reflexivity.
Qed.

Lemma stripped_entries_join (l : list string) :
  Forall (fun x => Py.truthy_str x = true /\ edge_space x = false
                   /\ comma_free x = true) l ->
  stripped_entries (Py.join "," l) = l.
Proof.
  induction 1 as [|x l (Ht & He & Hc) Hl IH]; [reflexivity|].
  destruct l as [|y l].
  - apply stripped_entries_single; assumption.
  - change (Py.join "," (x :: y :: l))
      with (x +:+ "," +:+ Py.join "," (y :: l)).
    rewrite entries_of_joined, IH, (stripped_entries_single x Ht He Hc).
    reflexivity.
Qed.

(** X2. Cleaning a list is idempotent: the retained identifiers, written back
    as a comma-separated list, are read as themselves. *)
Theorem stripped_entries_round_trip (lst : string) :
  stripped_entries (Py.join "," (stripped_entries lst)) = stripped_entries lst.
Proof.
  apply stripped_entries_join.
  pose proof (stripped_entries_truthy lst) as Ht.
  pose proof (stripped_entries_comma_free lst) as Hc.
  assert (He : Forall (fun x => edge_space x = false) (stripped_entries lst)).
  { unfold stripped_entries.
    induction (List.filter (fun x => Py.truthy_str (Py.strip x))
                 (Py.split_on "," lst)) as [|e l IH]; cbn [List.map];
      constructor; [apply edge_space_strip|exact IH]. }
  induction Ht as [|x l Hx Ht IH]; [constructor|].
  inversion Hc. inversion He. subst. constructor; auto.
Qed.

Lemma all_blank_no_entries (lst : string) :
  forallb blank (Py.split_on "," lst) = true -> stripped_entries lst = [].
Proof.
  rewrite stripped_entries_alt.
  induction (Py.split_on "," lst) as [|e l IH]; [reflexivity|].
  cbn [forallb List.filter]. intros H. apply andb_true_iff in H as [He Hl].
  rewrite He. cbn [negb]. apply IH, Hl.
Qed.

(** X3. A list that holds nothing but commas and whitespace (the empty list
    included) is nothing to do for either batch: [True] is returned, no
    request is made, no program is started and the disk is untouched. *)
Theorem blank_list_is_a_no_op (E : Env) (self : PhoenixDownloader)
    (lst model_type : string) (token : option string) (st : state) :
  forallb blank (Py.split_on "," lst) = true ->
  (exists lines,
     process_civitai_downloads E self lst model_type token st
     = (Ok true,
        {| disk := disk st; trace := trace st; out := out st ++ lines |}))
  /\ (exists lines,
        download_hf_repos E self lst token st
        = (Ok true,
           {| disk := disk st; trace := trace st; out := out st ++ lines |})).
Proof.
  intros Hblank. apply all_blank_no_entries in Hblank.
  unfold process_civitai_downloads, download_hf_repos. rewrite Hblank.
  destruct (Py.truthy_str lst); cbn [negb]; cbv iota; split;
    rewrite ?bind_log; cbn [tally_loop hf_loop];
    unfold bind, ret; rewrite ?log_printed; settle_lines.
Qed.

Lemma blank_list_is_a_no_op_witness :
  exists lines,
    process_civitai_downloads Sample.scenario Sample.dl " , ," "VAE" None st0
    = (Ok true, {| disk := ∅; trace := []; out := lines |}).
Proof.
  destruct (blank_list_is_a_no_op Sample.scenario Sample.dl " , ," "VAE" None
              st0 eq_refl) as [[lines Hrun] _].
  exists lines. exact Hrun.
Defined.

Lemma tally_loop_app (E : Env) (self : PhoenixDownloader)
    (model_type : string) (token : option string) (l1 l2 : list string) :
  forall successful failed st,
    tally_loop E self (l1 ++ l2) model_type token successful failed st =
    match tally_loop E self l1 model_type token successful failed st with
    | (Ok counts, st1) =>
        tally_loop E self l2 model_type token (fst counts) (snd counts) st1
    | (Raise e, st1) => (Raise e, st1)
    end.
Proof.
  induction l1 as [|model_id rest IH]; intros successful failed st.
  - reflexivity.
  - cbn [app tally_loop]. unfold bind at 1 3.
    destruct (download_civitai_model E self model_id model_type token st)
      as [[[|]|e] st1]; [apply IH| |reflexivity].
    rewrite !bind_log. apply IH.
Qed.

(** X4. The loop over a list "A,B" is the loop over the identifiers of A
    followed by the loop over those of B, which starts from the counters
    and the state the first one ended with; an exception in the first
    part ends the whole. *)
Theorem batches_compose (E : Env) (self : PhoenixDownloader)
    (a b model_type : string) (token : option string)
    (successful failed : nat) (st : state) :
  tally_loop E self (stripped_entries (a +:+ "," +:+ b)) model_type token
    successful failed st =
  match tally_loop E self (stripped_entries a) model_type token
          successful failed st with
  | (Ok counts, st1) =>
      tally_loop E self (stripped_entries b) model_type token
        (fst counts) (snd counts) st1
  | (Raise e, st1) => (Raise e, st1)
  end.
Proof. rewrite entries_of_joined. apply tally_loop_app. Qed.

(** ** More on one artifact *)

(** X12. A transfer tool that exits with a non-zero status makes the artifact
    fail, and nothing more is done: the checksum tool is not started and
    nothing is unlinked, so the disk stays as the tool left it (a partial
    file remains for the next run to resume). *)
Theorem failed_transfer_keeps_files (E : Env) (self : PhoenixDownloader)
    (model_id model_type : string) (token : option string) (st : state)
    (info : model_info) (f : string) :
  Py.truthy_str model_id = true ->
  resolution E self model_id token = Ok (Some info) ->
  filename info = VStr f ->
  Py.truthy_str f = true ->
  _file_exists_in_models E (models_dir E) (VStr f) = false ->
  returncode (fetched E self info f token st) <> 0%Z ->
  exists st',
    download_civitai_model E self model_id model_type token st
    = (Ok false, st')
    /\ disk st' = disk_after (fetched E self info f token st)
    /\ trace st' = trace st ++ [lookup model_id token;
                               Spawn (transfer_cmd E self info f token)].
Proof.
  intros Hid Hres Hname Hf Habsent Hrc.
  destruct (download_tool_failed E self model_id model_type token st Hid info
              Hres f Hname Hf Habsent Hrc) as [lines ->].
  eexists. repeat split.
Qed.

Lemma failed_transfer_keeps_files_witness :
  exists st',
    download_civitai_model More.interrupted Sample.dl "111" "Checkpoint" None
      st0 = (Ok false, st')
    /\ disk st' !! "/workspace/downloads_tmp/a.safetensors" = Some "wei"
    /\ spawns "sha256sum" (trace st') = [].
Proof.
  destruct (failed_transfer_keeps_files More.interrupted Sample.dl "111"
              "Checkpoint" None st0 Sample.info_111 "a.safetensors")
    as (st' & Hrun & Hdisk & Htrace); try reflexivity.
  { vm_compute. discriminate. }
  exists st'. split; [exact Hrun|]. split.
  - rewrite Hdisk. reflexivity.
  - rewrite Htrace. reflexivity.
Defined.

(** X11. When the existence check answers [True] for the resolved filename, the
    artifact is reported successful after its metadata request alone: no
    program is started, the disk is untouched. *)
Theorem found_artifact_skipped (E : Env) (self : PhoenixDownloader)
    (model_id model_type : string) (token : option string) (st : state)
    (info : model_info) :
  Py.truthy_str model_id = true ->
  resolution E self model_id token = Ok (Some info) ->
  Val.truthy (filename info) = true ->
  _file_exists_in_models E (models_dir E) (filename info) = true ->
  exists st',
    download_civitai_model E self model_id model_type token st = (Ok true, st')
    /\ disk st' = disk st
    /\ trace st' = trace st ++ [lookup model_id token].
Proof.
  intros Hid Hres Hname Hfound.
  destruct (download_skipped E self model_id model_type token st Hid info Hres
              Hname Hfound) as [lines ->].
  eexists. repeat split.
Qed.

Lemma found_artifact_skipped_witness :
  exists st',
    download_civitai_model Sample.stocked Sample.dl "111" "Checkpoint" None st0
    = (Ok true, st')
    /\ trace st' = [lookup "111" None].
Proof.
  destruct (found_artifact_skipped Sample.stocked Sample.dl "111" "Checkpoint"
              None st0 Sample.info_111) as (st' & Hrun & _ & Htrace);
    try reflexivity.
  exists st'. split; [exact Hrun|exact Htrace].
Defined.

(** X10. A request that fails, a status other than 200, a body that cannot be
    decoded, or an object whose "files" entry is missing or falsy: the
    artifact is reported failed after that one request, with no exception
    and no program started. *)
Theorem soft_failure_reported (E : Env) (self : PhoenixDownloader)
    (model_id model_type : string) (token : option string) (st : state) :
  Py.truthy_str model_id = true ->
  session_get E (api_url model_id) (auth_headers token) = RequestFailed
  \/ (exists code body,
        session_get E (api_url model_id) (auth_headers token)
        = Response code body
        /\ (code <> 200%Z
            \/ body = None
            \/ exists d,
                 body = Some (VDict d)
                 /\ (Val.assoc "files" d = None
                     \/ exists v, Val.assoc "files" d = Some v
                                  /\ Val.truthy v = false))) ->
  exists st',
    download_civitai_model E self model_id model_type token st
    = (Ok false, st')
    /\ disk st' = disk st
    /\ trace st' = trace st ++ [lookup model_id token].
Proof.
  intros Hid Hsoft.
  apply (soft_failures_resolve_none E self) in Hsoft.
  destruct (download_no_metadata E self model_id model_type token st Hid Hsoft)
    as [lines ->].
  eexists. repeat split.
Qed.

Lemma soft_failure_reported_witness :
  exists st',
    download_civitai_model Sample.scenario Sample.dl "222" "LoRA" None st0
    = (Ok false, st')
    /\ trace st' = [lookup "222" None].
Proof.
  destruct (soft_failure_reported Sample.scenario Sample.dl "222" "LoRA" None
              st0 eq_refl) as (st' & Hrun & _ & Htrace).
  { right. exists 404%Z, None. split; [reflexivity|].
    left. discriminate. }
  exists st'. split; [exact Hrun|exact Htrace].
Defined.

(** ** More on the existence check *)

(** X15. For a name that is one path component without "*", "?" or "[", the
    check never answers [True] unless a regular file of exactly that name
    sits somewhere under the root (a directory or a special file of that
    name does not count), whatever the permissions.  When every directory
    under the root can be listed and searched and every entry examined,
    it answers [True] exactly when there is such a file, at any depth.
    Directories behind a symbolic link are not part of the tree: the scan
    does not enter them. *)
Theorem plain_name_check_exact (E : Env) (dir f : string) :
  plain_name f = true ->
  (_file_exists_in_models E dir (VStr f) = true ->
   present_under f (tree_at E dir) = true)
  /\ (unobstructed_under (tree_at E dir) = true ->
      _file_exists_in_models E dir (VStr f) = present_under f (tree_at E dir)).
Proof. apply file_exists_plain. Qed.

Lemma plain_name_check_exact_witness :
  _file_exists_in_models Sample.stocked "/workspace/models"
    (VStr "a.safetensors") = true
  /\ _file_exists_in_models Sample.stocked "/workspace/models" (VStr "sdxl")
     = false.
Proof.
  split.
  - rewrite (proj2 (plain_name_check_exact Sample.stocked "/workspace/models"
                      "a.safetensors" eq_refl) eq_refl). reflexivity.
  - rewrite (proj2 (plain_name_check_exact Sample.stocked "/workspace/models"
                      "sdxl" eq_refl) eq_refl). reflexivity.
Defined.

(** X16. When the root is missing or is not a directory, the check answers
    [False] for every filename, a value that is no string included.  When
    the root is a directory that the process cannot search, it answers
    [False] for every name of one path component, with or without
    wildcards, whether or not the root can be listed.  It never raises. *)
Theorem closed_root_gives_false (E : Env) (dir : string) :
  ((forall listable searchable es,
      tree_at E dir <> Some (Dir listable searchable es)) ->
   forall filename, _file_exists_in_models E dir filename = false)
  /\ (forall listable es pat,
        tree_at E dir = Some (Dir listable false es) ->
        Glob.one_component pat = true ->
        _file_exists_in_models E dir (VStr pat) = false).
Proof.
  split.
  - intros Hroot filename. apply file_exists_no_directory. exact Hroot.
  - intros listable es pat. apply file_exists_unsearchable.
Qed.

Lemma closed_root_gives_false_witness :
  _file_exists_in_models Sample.stocked "/mnt/elsewhere/models" (VInt 7)
  = false
  /\ _file_exists_in_models
       (Sample.env Sample.http_111 (Sample.tools "abc123")
          (Some (Dir true false [("a.safetensors", File)])))
       "/workspace/models" (VStr "*.safetensors") = false.
Proof.
  split.
  - apply (proj1 (closed_root_gives_false Sample.stocked
                    "/mnt/elsewhere/models")).
    intros listable searchable es. discriminate.
  - apply (proj2 (closed_root_gives_false
                    (Sample.env Sample.http_111 (Sample.tools "abc123")
                       (Some (Dir true false [("a.safetensors", File)])))
                    "/workspace/models")
             true [("a.safetensors", File)]); reflexivity.
Defined.

(** ** More on verification *)

(** X17. [_verify_checksum] never raises: it starts [sha256sum] once
    on the path, does nothing else, and answers [False] whenever the tool
    exits with a non-zero status or prints no word. *)
Theorem verification_never_raises (E : Env) (path expected : string)
    (st : state) :
  exists b,
    _verify_checksum E path expected st =
    (Ok b,
     {| disk := disk_after (subprocess_run E ["sha256sum"; path] (disk st));
        trace := trace st ++ [Spawn ["sha256sum"; path]]; out := out st |})
    /\ (returncode (subprocess_run E ["sha256sum"; path] (disk st)) <> 0%Z
        \/ Py.split_ws (stdout (subprocess_run E ["sha256sum"; path] (disk st)))
           = [] ->
        b = false).
Proof.
  rewrite _verify_checksum_run. eexists. split; [reflexivity|].
  unfold verdict, computed_digest. intros [Hrc|Hout].
  - apply Z.eqb_neq in Hrc. rewrite Hrc. reflexivity.
  - rewrite Hout.
    destruct (Z.eqb (returncode (subprocess_run E ["sha256sum"; path] (disk st))) 0);
      reflexivity.
Qed.

(** ** More on resolution *)

Lemma lower_char_idem (c : ascii) :
  Py.lower_char (Py.lower_char c) = Py.lower_char c.
Proof. destruct c as [[] [] [] [] [] [] [] []]; reflexivity. Qed.

Lemma lower_idem (s : string) : Py.lower (Py.lower s) = Py.lower s.
Proof.
  induction s as [|c r IH]; [reflexivity|].
  change (Py.lower (String c r)) with (String (Py.lower_char c) (Py.lower r)).
  change (Py.lower (String (Py.lower_char c) (Py.lower r)))
    with (String (Py.lower_char (Py.lower_char c)) (Py.lower (Py.lower r))).
  rewrite lower_char_idem, IH. reflexivity.
Qed.

Lemma rbind_ok {A B : Type} (r : res A) (k : A -> res B) (b : B) :
  rbind r k = Ok b -> exists a, r = Ok a /\ k a = Ok b.
Proof. destruct r as [a|e]; cbn; [eauto|discriminate]. Qed.

Lemma first_file_some (model_id : string) (data : value) (info : model_info) :
  first_file model_id data = Ok (Some info) ->
  exists name sha,
    info = {| filename := name;
              download_url :=
                "https://civitai.com/api/download/models/"
                +:+ model_id +:+ "?type=Model&format=SafeTensor";
              hash := Py.lower sha |}.
Proof.
  unfold first_file. intros H.
  apply rbind_ok in H as (has_files & _ & H).
  apply rbind_ok in H as (files_ok & _ & H).
  destruct files_ok; [|discriminate].
  apply rbind_ok in H as (files & _ & H).
  apply rbind_ok in H as (file_info & _ & H).
  apply rbind_ok in H as (name & _ & H).
  apply rbind_ok in H as (hashes & _ & H).
  apply rbind_ok in H as (sha & _ & H).
  apply rbind_ok in H as (h & Hlower & H).
  destruct sha as [| | |digest| |]; try discriminate.
  cbn in Hlower. inversion Hlower. inversion H. subst. eauto.
Qed.

(** X13. Whatever the body says, a resolved artifact carries the fixed download
    address of its identifier (SafeTensor format, model type) and a hash
    without upper-case letters. *)
Theorem resolved_artifact_shape (E : Env) (self : PhoenixDownloader)
    (model_id : string) (token : option string) (info : model_info) :
  resolution E self model_id token = Ok (Some info) ->
  download_url info =
    "https://civitai.com/api/download/models/" +:+ model_id
    +:+ "?type=Model&format=SafeTensor"
  /\ Py.lower (hash info) = hash info.
Proof.
  rewrite resolution_answer. unfold answer.
  destruct (session_get E (api_url model_id) (auth_headers token))
    as [|code body]; [discriminate|].
  destruct (Z.leb 400 code && Z.ltb code 600); [discriminate|].
  destruct (Z.eqb code 200); [|discriminate].
  destruct body as [data|]; [|discriminate].
  intros H. apply first_file_some in H as (name & sha & ->).
  split; [reflexivity|]. cbn [hash]. apply lower_idem.
Qed.

Lemma resolved_artifact_shape_witness :
  hash Sample.info_111 = "abc123"
  /\ Py.lower (hash Sample.info_111) = hash Sample.info_111.
Proof.
  split; [reflexivity|].
  apply (resolved_artifact_shape Sample.scenario Sample.dl "111" None
           Sample.info_111 eq_refl).
Defined.

(** X14. Only the first entry of "files" is read: the other entries of the list
    and the other keys of the body change nothing. *)
Theorem only_first_file_read (model_id : string) (d : list (string * value))
    (x : value) (others : list value) :
  Val.assoc "files" d = Some (VList (x :: others)) ->
  first_file model_id (VDict d)
  = first_file model_id (VDict [("files", VList [x])]).
Proof.
  intros H. unfold first_file, rbind, Val.contains, Val.getitem.
  rewrite H. reflexivity.
Qed.

Lemma only_first_file_read_witness :
  first_file "9"
    (VDict [("id", VInt 9);
            ("files", VList [VDict [("name", VStr "a.safetensors")];
                             VDict [("name", VStr "b.ckpt")]])])
  = Ok (Some {| filename := VStr "a.safetensors";
                download_url :=
                  "https://civitai.com/api/download/models/9?type=Model&format=SafeTensor";
                hash := "" |}).
Proof.
  rewrite (only_first_file_read "9"
             [("id", VInt 9);
              ("files", VList [VDict [("name", VStr "a.safetensors")];
                               VDict [("name", VStr "b.ckpt")]])]
             (VDict [("name", VStr "a.safetensors")])
             [VDict [("name", VStr "b.ckpt")]] eq_refl).
  reflexivity.
Defined.

(** ** The entry point *)

Lemma show_files_total (E : Env) (self : PhoenixDownloader)
    (files : list string) :
  forall st, exists st', show_files E self files st = (Ok tt, st').
Proof.
  induction files as [|file rest IH]; intros st; cbn [show_files].
  - unfold ret. eauto.
  - unfold bind at 1. rewrite run_eq. cbn [andb]. cbv iota.
    unfold bind at 1.
    destruct (Z.eqb (returncode (subprocess_run E ["ls"; "-lh"; file] (disk st))) 0);
      rewrite ?log_printed; unfold ret; apply IH.
Qed.

(** The debug summary never raises: whatever goes wrong in it is logged. *)
Lemma debug_summary_total (E : Env) (P : Process) (self : PhoenixDownloader)
    (st : state) :
  exists st', debug_summary E P self st = (Ok tt, st').
Proof.
  unfold debug_summary. rewrite bind_log. unfold bind at 1.
  match goal with
  | |- context [staging_files P (disk ?s)] =>
      destruct (staging_files P (disk s)) as [|files|]
  end.
  - unfold ret. rewrite log_printed. eauto.
  - unfold try_except.
    match goal with
    | |- context [let (_, _) := ?body ?s in _] =>
        destruct (body s) as [[[]|e] st1]
    end; cbn [any_exception]; cbv iota beta;
      repeat (rewrite log_printed; cbv iota beta); eauto.
  - repeat (rewrite log_printed; cbv iota beta). eauto.
Qed.

Lemma debug_header_total (self : PhoenixDownloader) (b : bool)
    (m : M unit) (st : state) :
  (forall st, exists st', m st = (Ok tt, st')) ->
  exists st', (if b then m else ret tt) st = (Ok tt, st').
Proof. intros H. destruct b; [apply H|]. unfold ret. eauto. Qed.

(** X18. [main] ends without an exception, whatever the requests and the tools
    do, as long as the bodies received have the expected shape: no failed
    repository or artifact, in any category, makes the process fail.  (As
    everywhere here, a tool that is started completes with some status,
    and the constructor of the downloader succeeds.) *)
Theorem main_ends_normally (E : Env) (P : Process) (st : state) :
  conforming E ->
  exists st', main E P st = (Ok tt, st').
Proof.
  intros Hconf. unfold main. cbv zeta.
  fold (debug_requested P).
  set (dl := init (debug_requested P)).
  rewrite bind_log. unfold bind at 1.
  match goal with
  | |- context [(if debug_requested P then ?m else ret tt) ?s] =>
      destruct (debug_header_total dl (debug_requested P) m s) as [s1 ->]
  end.
  { intros s. rewrite !bind_log, log_printed. eauto. }
  unfold bind at 1.
  match goal with
  | |- context [download_hf_repos E dl ?l ?t ?s] =>
      destruct (download_hf_repos_total E dl l t s) as [s2 ->]
  end.
  do 3 (unfold bind at 1;
        match goal with
        | |- context [process_civitai_downloads E dl ?l ?ty ?t ?s] =>
            let s' := fresh "s" in
            destruct (process_total E dl l ty t s Hconf) as [s' ->]
        end).
  rewrite bind_log.
  destruct (debug_requested P); [apply debug_summary_total|].
  unfold ret. eauto.
Qed.

Lemma main_ends_normally_witness :
  exists st',
    main Sample.scenario
      (More.process [("CIVITAI_CHECKPOINTS_TO_DOWNLOAD", "111,222");
                     ("HF_REPOS_TO_DOWNLOAD", "org/gated")]) st0
    = (Ok tt, st').
Proof.
  apply (main_ends_normally Sample.scenario
           (More.process [("CIVITAI_CHECKPOINTS_TO_DOWNLOAD", "111,222");
                          ("HF_REPOS_TO_DOWNLOAD", "org/gated")]) st0).
  intros url headers. cbn. unfold Sample.http_111.
  destruct (String.eqb url (api_url "111")); reflexivity.
Defined.

(** X19. With the four list variables unset or empty and debug mode not asked
    for, [main] has nothing to do once the downloader is constructed (the
    constructor creates the staging directory when it is missing, and
    raises when it cannot): it makes no request, starts no program,
    touches no file and prints six lines, one of them per empty list. *)
Theorem main_with_nothing_to_do (E : Env) (P : Process) (st : state) :
  debug_requested P = false ->
  unset P "HF_REPOS_TO_DOWNLOAD" ->
  unset P "CIVITAI_CHECKPOINTS_TO_DOWNLOAD" ->
  unset P "CIVITAI_LORAS_TO_DOWNLOAD" ->
  unset P "CIVITAI_VAES_TO_DOWNLOAD" ->
  main E P st =
  (Ok tt,
   printed st
     [line "Initializing Python download manager...";
      line "No Hugging Face repos specified to download.";
      line "No Civitai Checkpoints specified to download.";
      line "No Civitai LoRAs specified to download.";
      line "No Civitai VAEs specified to download.";
      line "All downloads complete."]).
Proof.
  intros Hdbg Hhf Hck Hlo Hva.
  assert (Hempty : forall name, unset P name -> os_getenv P name "" = "").
  { intros name [H|H]; unfold os_getenv; rewrite H; reflexivity. }
  unfold main. cbv zeta. fold (debug_requested P).
  rewrite Hdbg, (Hempty _ Hhf), (Hempty _ Hck), (Hempty _ Hlo), (Hempty _ Hva).
  unfold download_hf_repos, process_civitai_downloads.
  cbn [Py.truthy_str negb]. cbv iota.
  rewrite !bind_log. unfold bind, ret.
  repeat (rewrite log_printed; cbv iota beta).
  unfold printed, log_lines, init. cbn. rewrite <- !app_assoc. reflexivity.
Qed.

Lemma main_with_nothing_to_do_witness :
  exists lines,
    main Sample.scenario (More.process [("CIVITAI_TOKEN", "key")]) st0
    = (Ok tt, {| disk := ∅; trace := []; out := lines |})
    /\ length lines = 6.
Proof.
  eexists. split.
  - rewrite (main_with_nothing_to_do Sample.scenario
               (More.process [("CIVITAI_TOKEN", "key")]) st0 eq_refl);
      [reflexivity| | | |]; left; reflexivity.
  - reflexivity.
Defined.

Lemma show_files_appends (E : Env) (self : PhoenixDownloader)
    (Ql : string -> Prop) (files : list string) :
  (forall m d, Forall Ql (log_lines self m d)) ->
  appends summary_event Ql (show_files E self files).
Proof.
  intros Hl. induction files as [|file rest IH]; cbn [show_files].
  - apply appends_ret.
  - apply appends_bind; [apply appends_run; left; reflexivity|intros r].
    apply appends_bind; [|intros _; exact IH].
    destruct (Z.eqb (returncode r) 0); [apply appends_log, Hl|apply appends_ret].
Qed.

Lemma debug_summary_appends (E : Env) (P : Process)
    (self : PhoenixDownloader) (Ql : string -> Prop) :
  (forall m d, Forall Ql (log_lines self m d)) ->
  appends summary_event Ql (debug_summary E P self).
Proof.
  intros Hl. unfold debug_summary.
  apply appends_bind; [apply appends_log, Hl|intros _].
  apply appends_bind; [|intros _; apply appends_log, Hl].
  intros st. cbv beta.
  destruct (staging_files P (disk st)) as [|files|].
  - apply appends_ret.
  - revert st. apply appends_try; [|apply appends_log, Hl].
    destruct files as [|file files]; [apply appends_log, Hl|].
    apply appends_bind; [apply appends_log, Hl|intros _].
    apply appends_bind; [apply show_files_appends, Hl|intros _].
    apply appends_bind; [apply appends_run; right; reflexivity|intros r].
    destruct (Z.eqb (returncode r) 0); [|apply appends_ret].
    destruct (Py.split_ws (stdout r));
      [apply appends_raise|apply appends_log, Hl].
  - revert st. apply appends_log, Hl.
Qed.

Lemma main_appends (E : Env) (P : Process) (Ql : string -> Prop) :
  (forall m d, Forall Ql (log_lines (init (debug_requested P)) m d)) ->
  appends (main_event P) Ql (main E P).
Proof.
  intros Hl. unfold main. cbv zeta. fold (debug_requested P).
  set (dl := init (debug_requested P)) in *.
  set (key := Some (os_getenv P "CIVITAI_TOKEN" "")).
  assert (Hbatch : forall lst ty,
             appends (main_event P) Ql
               (process_civitai_downloads E dl lst ty key)).
  { intros lst ty.
    apply (appends_weaken (civitai_event key) _ Ql Ql);
      [intros e He; right; left; exact He|trivial|].
    apply (process_appends E dl (civitai_event key) Ql Hl
             (transfer_civitai E dl key) (fun path => or_intror eq_refl)
             (fun path => I) key (fun model_id => lookup_civitai model_id key)). }
  apply appends_bind; [apply appends_log, Hl|intros _].
  apply appends_bind; [|intros _].
  { destruct (debug_requested P); [|apply appends_ret].
    repeat (apply appends_bind; [apply appends_log, Hl|intros _]).
    apply appends_log, Hl. }
  apply appends_bind; [|intros _].
  { apply (appends_weaken (hf_event dl) _ Ql Ql);
      [intros e He; left; exact He|trivial|].
    apply (hf_repos_appends E dl (hf_event dl) Ql Hl (clone_hf dl)
             (fun Hdbg path => or_intror (conj eq_refl Hdbg))). }
  do 3 (apply appends_bind; [apply Hbatch|intros _]).
  apply appends_bind; [apply appends_log, Hl|intros _].
  destruct (debug_requested P) eqn:Hdbg; [|apply appends_ret].
  apply (appends_weaken summary_event _ Ql Ql);
    [intros e He; right; right; split; [exact Hdbg|exact He]|trivial|].
  apply debug_summary_appends, Hl.
Qed.

(** X20. Whatever happens, [main] makes no request other than lookups at the
    model-versions endpoint with the headers of CIVITAI_TOKEN, and starts
    no program other than [huggingface-cli], [aria2c] and [sha256sum],
    plus [du] and [ls] when debug mode is asked for. *)
Theorem main_events (E : Env) (P : Process) (st : state) :
  exists evs,
    trace (snd (main E P st)) = trace st ++ evs
    /\ Forall (main_event P) evs.
Proof.
  destruct (main_appends E P (fun _ => True)
              (log_lines_any (init (debug_requested P))) st)
    as (evs & lines & Ht & _ & Fe & _).
  exists evs. split; assumption.
Qed.

(** X21. Unless DEBUG_MODE reads "true" (in any case), everything [main]
    prints is a plain [[DOWNLOAD]] line. *)
Theorem main_plain_output (E : Env) (P : Process) (st : state) :
  debug_requested P = false ->
  exists lines,
    out (snd (main E P st)) = out st ++ lines /\ Forall terse lines.
Proof.
  intros Hoff.
  destruct (main_appends E P terse) with (st := st)
    as (evs & lines & _ & Ho & _ & Fl).
  { intros m d. apply log_lines_terse. rewrite Hoff. reflexivity. }
  exists lines. split; assumption.
Qed.

Lemma main_plain_output_witness :
  exists lines,
    out (snd (main Sample.scenario
                (More.process [("DEBUG_MODE", "yes");
                               ("CIVITAI_LORAS_TO_DOWNLOAD", "111")]) st0))
    = lines
    /\ Forall terse lines.
Proof.
  destruct (main_plain_output Sample.scenario
              (More.process [("DEBUG_MODE", "yes");
                             ("CIVITAI_LORAS_TO_DOWNLOAD", "111")]) st0 eq_refl)
    as (lines & Ho & Fl).
  exists lines. split; [exact Ho|exact Fl].
Defined.
